(** * BloomAI: disease-detection route handler and client form handler

    Shallow embedding of
      - [frontend/src/app/api/classify/route.ts]  (module [Route]),
      - the handlers of the disease-detection page (module [Page]),
      - the handlers of the flower page (module [Home]),
    together with the provider chain and the flower classifier of the
    backend, which are described by the specification only (modules [Chain]
    and [Classifier]).

    JavaScript strings are sequences of UTF-16 code units, JSON values are an
    inductive type, [undefined] is the [None] of an option, and [await]ed
    calls to the outside world are oracles whose outcome is either a value or
    a thrown exception. *)

From Stdlib Require Import List NArith ZArith QArith String Ascii Bool Lia.
From Stdlib Require Import DecimalString Permutation Lqa.
Import ListNotations.

Close Scope Q_scope.
Set Implicit Arguments.
Local Set Warnings "-register-all".

(* ------------------------------------------------------------------ *)
(** ** JavaScript values *)

Module Js.

(** A string is its sequence of UTF-16 code units. *)
Definition jsstring := list N.

Definition lit (s : string) : jsstring :=
  List.map N_of_ascii (list_ascii_of_string s).

Fixpoint streq (a b : jsstring) : bool :=
  match a, b with
  | [], [] => true
  | x :: a', y :: b' => N.eqb x y && streq a' b'
  | _, _ => false
  end.

Definition is_empty (s : jsstring) : bool :=
  match s with [] => true | _ => false end.

(** WhiteSpace and LineTerminator code points of ECMAScript, the ones
    [String.prototype.trim] strips. *)
Definition is_whitespace (c : N) : bool :=
  (N.leb 9 c && N.leb c 13) || N.eqb c 32 || N.eqb c 160 || N.eqb c 5760
  || (N.leb 8192 c && N.leb c 8202) || N.eqb c 8232 || N.eqb c 8233
  || N.eqb c 8239 || N.eqb c 8287 || N.eqb c 12288 || N.eqb c 65279.

Fixpoint trimStart (s : jsstring) : jsstring :=
  match s with
  | c :: s' => if is_whitespace c then trimStart s' else s
  | [] => []
  end.

Definition trimEnd (s : jsstring) : jsstring := rev (trimStart (rev s)).

Definition trim (s : jsstring) : jsstring := trimEnd (trimStart s).

(** Parsed JSON. A number is the rational value of its double. *)
Inductive json : Type :=
| JNull
| JBool (b : bool)
| JNum (q : Q)
| JStr (s : jsstring)
| JArr (xs : list json)
| JObj (fields : list (jsstring * json)).

(** A JavaScript value as the handlers see it: [None] is [undefined]. *)
Definition jsval := option json.

Definition undefined : jsval := None.

(** ToBoolean. *)
Definition truthy (v : jsval) : bool :=
  match v with
  | None => false
  | Some JNull => false
  | Some (JBool b) => b
  | Some (JNum q) => negb (Z.eqb (Qnum q) 0)
  | Some (JStr s) => negb (is_empty s)
  | Some (JArr _) => true
  | Some (JObj _) => true
  end.

(** [a || b]. *)
Definition or_else (a b : jsval) : jsval := if truthy a then a else b.

(** Own property of an object literal or of a parsed JSON object: with a
    repeated key the last entry wins. *)
Fixpoint obj_get (k : jsstring) (fields : list (jsstring * json)) : jsval :=
  match fields with
  | [] => None
  | (k', v) :: rest =>
      match obj_get k rest with
      | Some w => Some w
      | None => if streq k k' then Some v else None
      end
  end.

Definition index_key (i : nat) : jsstring :=
  lit (NilZero.string_of_uint (Nat.to_uint i)).

(** [v?.k] for a property name [k] that is not an index and that no
    prototype defines. *)
Definition opt_prop (v : jsval) (k : jsstring) : jsval :=
  match v with
  | Some (JObj fields) => obj_get k fields
  | _ => None
  end.

(** [v?.[i]]. *)
Definition opt_index (v : jsval) (i : nat) : jsval :=
  match v with
  | Some (JArr xs) => nth_error xs i
  | Some (JStr s) => option_map (fun c => JStr [c]) (nth_error s i)
  | Some (JObj fields) => obj_get (index_key i) fields
  | _ => None
  end.

(** What a [throw] carries: an [Error] object (name and message) or any
    other value. *)
Inductive thrown : Type :=
| ErrorObj (name message : jsstring)
| NonError (v : jsval).

Inductive Outcome (A : Type) : Type :=
| Ok (a : A)
| Throw (e : thrown).
Arguments Ok {A} a.
Arguments Throw {A} e.

Definition is_ok {A} (o : Outcome A) : bool :=
  match o with Ok _ => true | Throw _ => false end.

(** Reading a property of [null] or [undefined] throws a TypeError. *)
Definition TypeError_read (base k : jsstring) : thrown :=
  ErrorObj (lit "TypeError")
           (lit "Cannot read properties of " ++ base
              ++ lit " (reading '" ++ k ++ lit "')").

(** [v.k], for a property name [k] that is not an index and that no
    prototype defines. *)
Definition get_prop (v : jsval) (k : jsstring) : Outcome jsval :=
  match v with
  | None => Throw (TypeError_read (lit "undefined") k)
  | Some JNull => Throw (TypeError_read (lit "null") k)
  | Some (JObj fields) => Ok (obj_get k fields)
  | Some _ => Ok None
  end.

(** An object literal as [JSON.stringify] writes it: a property whose value
    is [undefined] is left out. *)
Fixpoint stringify_fields (fields : list (jsstring * jsval)) : list (jsstring * json) :=
  match fields with
  | [] => []
  | (k, Some v) :: rest => (k, v) :: stringify_fields rest
  | (_, None) :: rest => stringify_fields rest
  end.

End Js.
Import Js.

(* ------------------------------------------------------------------ *)
(** ** Handlers as state-passing computations that may throw *)

Module Eff.

Section WithState.
Variable S : Type.

Definition M (A : Type) : Type := S -> Outcome A * S.

Definition ret {A} (a : A) : M A := fun s => (Ok a, s).

Definition bind {A B} (m : M A) (k : A -> M B) : M B :=
  fun s => match m s with
           | (Ok a, s') => k a s'
           | (Throw e, s') => (Throw e, s')
           end.

Definition throw {A} (e : thrown) : M A := fun s => (Throw e, s).

(** [await p] for a promise that has settled with [o]. *)
Definition await {A} (o : Outcome A) : M A := fun s => (o, s).

Definition modify (f : S -> S) : M unit := fun s => (Ok tt, f s).

Definition gets {A} (f : S -> A) : M A := fun s => (Ok (f s), s).

(** [try { m } catch (e) { h e }] *)
Definition try_catch {A} (m : M A) (h : thrown -> M A) : M A :=
  fun s => match m s with
           | (Ok a, s') => (Ok a, s')
           | (Throw e, s') => h e s'
           end.

(** [try { m } finally { f }], for a [finally] block that cannot throw. *)
Definition try_finally {A} (m : M A) (f : M unit) : M A :=
  fun s => match m s with
           | (o, s') => (o, snd (f s'))
           end.
End WithState.

Arguments ret {S A} a.
Arguments bind {S A B} m k.
Arguments throw {S A} e.
Arguments await {S A} o.
Arguments modify {S} f.
Arguments gets {S A} f.
Arguments try_catch {S A} m h.
Arguments try_finally {S A} m f.

End Eff.
Import Eff.

Declare Scope eff_scope.
Delimit Scope eff_scope with eff.
Notation "x <- m ;; k" := (bind m (fun x => k))
  (at level 100, m at next level, right associativity) : eff_scope.
Notation "m ;; k" := (bind m (fun _ => k))
  (at level 100, right associativity) : eff_scope.
Open Scope eff_scope.

(* ------------------------------------------------------------------ *)
(** ** Form data *)

Module Form.

Record File : Type := mkFile {
  file_name : jsstring;
  file_type : jsstring;
  file_bytes : list N
}.

Definition file_size (f : File) : N := N.of_nat (List.length (file_bytes f)).

Inductive FormDataEntryValue : Type :=
| FString (s : jsstring)
| FFile (f : File).

(** Entries in the order they were appended. *)
Definition FormData := list (jsstring * FormDataEntryValue).

(** [fd.get(name)]: the first value of that name, [null] ([None]) without one. *)
Fixpoint get (name : jsstring) (fd : FormData) : option FormDataEntryValue :=
  match fd with
  | [] => None
  | (k, v) :: rest => if streq name k then Some v else get name rest
  end.

Definition append (fd : FormData) (name : jsstring) (v : FormDataEntryValue) : FormData :=
  fd ++ [(name, v)].

Definition has (name : jsstring) (fd : FormData) : bool :=
  existsb (fun e => streq name (fst e)) fd.

(** ToBoolean of what [get] returns. *)
Definition entry_truthy (v : option FormDataEntryValue) : bool :=
  match v with
  | None => false
  | Some (FString s) => negb (is_empty s)
  | Some (FFile _) => true
  end.

End Form.

(* ------------------------------------------------------------------ *)
(** ** [route.ts] *)

Module Route.

(** One element of the output of [hf.imageClassification]. *)
Record ClassificationEntry : Type := mkEntry {
  label : jsstring;
  score : Q
}.

(** The outside world of the route handler. *)
Record Services : Type := mkServices {
  (** [hf.imageClassification({ data, model })], for the client built with
      the given access token *)
  hf_imageClassification :
    option jsstring -> Form.FormDataEntryValue -> jsstring ->
    Outcome (list ClassificationEntry);
  (** [google_web_search({ query })] *)
  google_web_search : jsstring -> Outcome jsval
}.

Record NextRequest : Type := mkRequest {
  (** how [req.formData()] settles *)
  req_formData : Outcome Form.FormData
}.

Record NextResponse : Type := mkResponse {
  status : N;
  body : json
}.

(** What the handler does to the outside, in order. *)
Inductive Event : Type :=
| EvImageClassification (token : option jsstring)
                        (data : Form.FormDataEntryValue) (model : jsstring)
| EvWebSearch (query : jsstring)
| EvConsoleError (e : thrown).

Definition Handler := M (list Event).

Definition emit (e : Event) : Handler unit := modify (fun l => l ++ [e]).

(** [NextResponse.json(obj, { status })] *)
Definition NextResponse_json (obj : list (jsstring * jsval)) (st : N) : NextResponse :=
  mkResponse st (JObj (stringify_fields obj)).

Record ParsedResults : Type := mkParsed {
  causes : jsval;
  precautions : jsval;
  solutions : jsval
}.

Definition NA : jsval := Some (JStr (lit "N/A")).

Definition parseSearchResults (searchResults : jsval) : ParsedResults :=
  let causes :=
    or_else (opt_prop (opt_index (opt_prop searchResults (lit "organic_results")) 0)
                      (lit "snippet")) NA in
  let precautions :=
    or_else (opt_prop (opt_index (opt_prop searchResults (lit "organic_results")) 1)
                      (lit "snippet")) NA in
  let solutions :=
    or_else (opt_prop (opt_index (opt_prop searchResults (lit "organic_results")) 2)
                      (lit "snippet")) NA in
  mkParsed causes precautions solutions.

Definition imageClassificationModel : jsstring := lit "google/vit-base-patch16-224".

Definition search_query (diseaseName : jsstring) : jsstring :=
  lit "causes, precautions, and solutions for " ++ diseaseName.

Section Handler.
(** [process.env.HUGGINGFACE_API_KEY] *)
Variable HUGGINGFACE_API_KEY : option jsstring.
Variable sv : Services.

Definition POST (req : NextRequest) : Handler NextResponse :=
  try_catch
    (formData <- await (req_formData req) ;;
     let image := Form.get (lit "image") formData in
     match image with
     | Some data =>
         if negb (Form.entry_truthy image) then
           ret (NextResponse_json
                  [(lit "error", Some (JStr (lit "No image provided")))] 400)
         else
           (* Step 1: image classification *)
           emit (EvImageClassification HUGGINGFACE_API_KEY data
                                       imageClassificationModel) ;;
           classificationResult <-
             await (hf_imageClassification sv HUGGINGFACE_API_KEY data
                                           imageClassificationModel) ;;
           let topResult := nth_error classificationResult 0 in
           match topResult with
           | None => throw (TypeError_read (lit "undefined") (lit "label"))
           | Some topResult =>
               let diseaseName := label topResult in
               (* Step 2: web search *)
               emit (EvWebSearch (search_query diseaseName)) ;;
               searchResults <-
                 await (google_web_search sv (search_query diseaseName)) ;;
               (* Step 3: parse the search results *)
               let parsed := parseSearchResults searchResults in
               ret (NextResponse_json
                      [(lit "diseaseName", Some (JStr diseaseName));
                       (lit "identificationConfidence",
                        Some (JNum (score topResult)));
                       (lit "causes", causes parsed);
                       (lit "precautions", precautions parsed);
                       (lit "solutions", solutions parsed)] 200)
           end
     | None =>
         ret (NextResponse_json
                [(lit "error", Some (JStr (lit "No image provided")))] 400)
     end)
    (fun error =>
       emit (EvConsoleError error) ;;
       ret (NextResponse_json
              [(lit "error", Some (JStr (lit "Something went wrong")))] 500)).

(** The response of a handler started with an empty log. The [catch] block
    returns, so [POST] never ends in [Throw]; [run] exposes that. *)
Definition run (req : NextRequest) : NextResponse * list Event :=
  match POST req [] with
  | (Ok r, log) => (r, log)
  | (Throw _, log) =>
      (NextResponse_json
         [(lit "error", Some (JStr (lit "Something went wrong")))] 500, log)
  end.
End Handler.

End Route.

(* ------------------------------------------------------------------ *)
(** ** The disease-detection page *)

Module Page.

(** The [DiseaseInfo] the page holds. The fields are declared as strings;
    what is stored is whatever the parsed response carried. *)
Record DiseaseInfo : Type := mkInfo {
  diseaseName : jsval;
  causes : jsval;
  precautions : jsval;
  solutions : jsval
}.

(** The component's [useState] cells. *)
Record State : Type := mkState {
  diseaseInfo : option DiseaseInfo;
  isPending : bool;
  imagePreview : option jsstring;
  geminiKey : jsstring;
  showKeyInput : bool;
  error : option jsstring
}.

Definition initialState : State :=
  mkState None false None [] false None.

Definition setDiseaseInfo (v : option DiseaseInfo) (st : State) : State :=
  mkState v (isPending st) (imagePreview st) (geminiKey st) (showKeyInput st) (error st).
Definition setIsPending (v : bool) (st : State) : State :=
  mkState (diseaseInfo st) v (imagePreview st) (geminiKey st) (showKeyInput st) (error st).
Definition setImagePreview (v : option jsstring) (st : State) : State :=
  mkState (diseaseInfo st) (isPending st) v (geminiKey st) (showKeyInput st) (error st).
Definition setGeminiKey (v : jsstring) (st : State) : State :=
  mkState (diseaseInfo st) (isPending st) (imagePreview st) v (showKeyInput st) (error st).
Definition setShowKeyInput (v : bool) (st : State) : State :=
  mkState (diseaseInfo st) (isPending st) (imagePreview st) (geminiKey st) v (error st).
Definition setError (v : option jsstring) (st : State) : State :=
  mkState (diseaseInfo st) (isPending st) (imagePreview st) (geminiKey st) (showKeyInput st) v.

(** What [fetch] resolves to, as far as the handler looks at it. *)
Record FetchResponse : Type := mkFetchResponse {
  ok : bool;
  (** how [response.json()] settles *)
  json_body : Outcome json
}.

(** The outside world of the page. [fetch] is called with the abort signal of
    a controller that a 60000 ms timer aborts: a call the timer aborts is a
    call that rejects with an error named [AbortError]. *)
Record Network : Type := mkNetwork {
  fetch : jsstring -> Form.FormData -> Outcome FetchResponse
}.

Inductive Event : Type :=
| EvSetTimeout (ms : N)
| EvFetch (url : jsstring) (method : jsstring) (body : Form.FormData)
| EvClearTimeout
| EvConsoleError (e : thrown).

Record World : Type := mkWorld {
  ui : State;
  out : list Event
}.

Definition Handler := M World.

Definition set (f : State -> State) : Handler unit :=
  modify (fun w => mkWorld (f (ui w)) (out w)).

Definition emit (e : Event) : Handler unit :=
  modify (fun w => mkWorld (ui w) (out w ++ [e])).

Definition msg_select_image : jsstring := lit "Please select an image to upload.".
Definition msg_unknown : jsstring := lit "An unknown error occurred.".
Definition msg_failed : jsstring := lit "Failed to detect plant disease.".
Definition msg_invalid : jsstring := lit "Invalid response from disease detection API.".
Definition msg_try_later : jsstring := lit "Could not detect disease. Please try again later.".
Definition msg_timed_out : jsstring :=
  lit "Request timed out. Please check your connection and try again.".

Section Handlers.
(** [process.env.NEXT_PUBLIC_API_URL] *)
Variable NEXT_PUBLIC_API_URL : option jsstring.
Variable net : Network.
(** ToString of a value that is not a string (what [new Error(v)] stores as
    its message). *)
Variable to_string : json -> jsstring.

Definition ToString (v : jsval) : jsstring :=
  match v with
  | Some (JStr s) => s
  | Some j => to_string j
  | None => lit "undefined"
  end.

(** [new Error(message)] *)
Definition new_Error (message : jsval) : thrown :=
  ErrorObj (lit "Error") (ToString message).

Definition apiUrl : jsstring :=
  match NEXT_PUBLIC_API_URL with
  | Some u => if is_empty u then lit "http://localhost:8000" else u
  | None => lit "http://localhost:8000"
  end.

(** The [FormData] that [handleSubmit] builds for the upload. *)
Definition uploadFormData (imageFile : Form.File) (geminiKey : jsstring)
  : Form.FormData :=
  let uploadFormData :=
    Form.append [] (lit "image") (Form.FFile imageFile) in
  if negb (is_empty geminiKey) && negb (is_empty (trim geminiKey))
  then Form.append uploadFormData (lit "api_key") (Form.FString geminiKey)
  else uploadFormData.

Definition endpoint : jsstring := apiUrl ++ lit "/detect-disease".

(** The [try] block of [handleSubmit]. *)
Definition submit_body (imageFile : Form.File) : Handler unit :=
  geminiKey <- gets (fun w => geminiKey (ui w)) ;;
  let uploadFormData := uploadFormData imageFile geminiKey in
  emit (EvSetTimeout 60000) ;;
  emit (EvFetch endpoint (lit "POST") uploadFormData) ;;
  response <- await (fetch net endpoint uploadFormData) ;;
  emit EvClearTimeout ;;
  if negb (ok response) then
    errorData <-
      try_catch (await (json_body response))
                (fun _ => ret (JObj [(lit "detail", JStr msg_unknown)])) ;;
    detail <- await (get_prop (Some errorData) (lit "detail")) ;;
    throw (new_Error (or_else detail (Some (JStr msg_failed))))
  else
    data <- await (json_body response) ;;
    diseaseName <- await (get_prop (Some data) (lit "diseaseName")) ;;
    if negb (truthy diseaseName) then throw (new_Error (Some (JStr msg_invalid)))
    else
    causes <- await (get_prop (Some data) (lit "causes")) ;;
    if negb (truthy causes) then throw (new_Error (Some (JStr msg_invalid)))
    else
    precautions <- await (get_prop (Some data) (lit "precautions")) ;;
    if negb (truthy precautions) then throw (new_Error (Some (JStr msg_invalid)))
    else
    solutions <- await (get_prop (Some data) (lit "solutions")) ;;
    if negb (truthy solutions) then throw (new_Error (Some (JStr msg_invalid)))
    else
    set (setDiseaseInfo
           (Some (mkInfo diseaseName causes precautions solutions))).

(** The [catch] block of [handleSubmit]. *)
Definition submit_catch (error : thrown) : Handler unit :=
  emit (EvConsoleError error) ;;
  let errorMessage :=
    match error with
    | ErrorObj name message =>
        if streq name (lit "AbortError") then msg_timed_out else message
    | NonError _ => msg_try_later
    end in
  set (setError (Some errorMessage)).

Definition handleSubmit (form : Form.FormData) : Handler unit :=
  match Form.get (lit "image") form with
  | Some (Form.FFile imageFile) =>
      if N.eqb (Form.file_size imageFile) 0 then
        set (setError (Some msg_select_image))
      else
        set (setIsPending true) ;;
        set (setError None) ;;
        set (setDiseaseInfo None) ;;
        try_finally
          (try_catch (submit_body imageFile) submit_catch)
          (set (setIsPending false))
  | _ => set (setError (Some msg_select_image))
  end.

(** [reader.onloadend] of [handleFileChange], [result] being the data URL. *)
Definition handleFileChange (result : jsstring) : Handler unit :=
  set (setImagePreview (Some result)) ;;
  set (setDiseaseInfo None) ;;
  set (setError None) ;;
  showKeyInput <- gets (fun w => showKeyInput (ui w)) ;;
  if negb showKeyInput then set (setShowKeyInput true) else ret tt.

Definition handleRemoveImage : Handler unit :=
  set (setImagePreview None) ;;
  set (setDiseaseInfo None) ;;
  set (setError None) ;;
  set (setShowKeyInput false).

(** [onChange] of the key input *)
Definition onKeyChange (value : jsstring) : Handler unit :=
  set (setGeminiKey value).

(** [onClick] of the button that starts over *)
Definition onAnalyzeAnother : Handler unit :=
  set (setDiseaseInfo None) ;;
  handleRemoveImage.

(** The state of the page after a handler has run to its end. *)
Definition after (h : Handler unit) (st : State) : State :=
  ui (snd (h (mkWorld st []))).

(** What a handler did to the outside. *)
Definition trace (h : Handler unit) (st : State) : list Event :=
  out (snd (h (mkWorld st []))).
End Handlers.

End Page.

(* ------------------------------------------------------------------ *)
(** ** The provider chain of the detect-disease service

    The service behind [/detect-disease] is [backend/main.py]; its chain is
    written here after the specification. The free provider is the route
    handler of [Route]. *)

Module Chain.

(** Modelled from the spec: the tagged variants of the providers of
    [backend/main.py] (section 9). *)
Inductive ProviderKind : Type := FreeProvider | EnhancedProvider.

(** Modelled from the spec: the error taxonomy of the service of
    [backend/main.py] (section 7). *)
Inductive ServiceError : Type :=
| DecodeError
| InferenceError
| AllProvidersFailedError
| NormalizationError.

(** Modelled from the spec: what an operation of [backend/main.py] ends
    in, a value or an error of the taxonomy. *)
Inductive Result (A : Type) : Type :=
| Success (a : A)
| Failure (e : ServiceError).
Arguments Success {A} a.
Arguments Failure {A} e.

Definition is_failure {A} (r : Result A) : bool :=
  match r with Success _ => false | Failure _ => true end.

(** Modelled from the spec: the canonical disease report that
    [backend/main.py] returns (section 3), four text fields. *)
Record DiseaseReport : Type := mkReport {
  diseaseName : jsstring;
  causes : jsstring;
  precautions : jsstring;
  solutions : jsstring
}.

(** Modelled from the spec: the capability every provider of
    [backend/main.py] implements (section 4.3),
    [detectDisease(image, optionalCredential) -> rawOutput]; the raw output
    is a JSON value, a failed call a thrown exception. *)
Record Provider : Type := mkProvider {
  kind : ProviderKind;
  call : Form.File -> option jsstring -> Outcome json
}.

(** Modelled from the spec: the availability flag of a provider of
    [backend/main.py] (section 3, ProviderConfig), derived from whether a
    credential was supplied; the free provider needs none. *)
Definition available (p : Provider) (credential : option jsstring) : bool :=
  match kind p, credential with
  | FreeProvider, _ => true
  | EnhancedProvider, Some _ => true
  | EnhancedProvider, None => false
  end.

(** Modelled from the spec: a text field of a raw output of
    [backend/main.py]'s providers, when the provider supplied one
    (section 4.4). *)
Definition text_field (raw : json) (k : jsstring) : option jsstring :=
  match opt_prop (Some raw) k with
  | Some (JStr s) => if is_empty s then None else Some s
  | _ => None
  end.

(** Modelled from the spec: the placeholder that [backend/main.py]'s
    normalizer substitutes for a missing field (section 4.4, b). *)
Definition or_placeholder (f : option jsstring) : jsstring :=
  match f with Some s => s | None => lit "N/A" end.

(** Modelled from the spec: the response normalizer of [backend/main.py]
    (section 4.4). A text field the provider did not supply becomes the
    placeholder; without a disease name normalization fails ([None] stands
    for NormalizationError). *)
Definition normalize (raw : json) (k : ProviderKind) : option DiseaseReport :=
  match text_field raw (lit "diseaseName") with
  | None => None
  | Some name =>
      Some (mkReport name
              (or_placeholder (text_field raw (lit "causes")))
              (or_placeholder (text_field raw (lit "precautions")))
              (or_placeholder (text_field raw (lit "solutions"))))
  end.

(** Modelled from the spec: one attempt of a provider of
    [backend/main.py], the call and then the normalization of what it
    returned; a response that does not normalize counts as a failure of the
    provider (section 7). *)
Definition attempt (p : Provider) (image : Form.File) (credential : option jsstring)
  : option DiseaseReport :=
  match call p image credential with
  | Ok raw => normalize raw (kind p)
  | Throw _ => None
  end.

(** Modelled from the spec: the providers the chain of [backend/main.py]
    invoked, in order. *)
Inductive Event : Type :=
| Invoked (k : ProviderKind).

(** Modelled from the spec: the fallback policy of the chain of
    [backend/main.py] (section 4.3, section 7). Providers are tried in order,
    those that are not available are skipped, the first report that
    normalizes is returned tagged with its provider; [last] is the failure to
    surface when none is left: AllProvidersFailedError after a failed call,
    NormalizationError after a response that did not normalize. *)
Fixpoint detect (providers : list Provider) (image : Form.File)
    (credential : option jsstring) (last : ServiceError)
  : Result (ProviderKind * DiseaseReport) * list Event :=
  match providers with
  | [] => (Failure last, [])
  | p :: rest =>
      if available p credential then
        match call p image credential with
        | Ok raw =>
            match normalize raw (kind p) with
            | Some report => (Success (kind p, report), [Invoked (kind p)])
            | None =>
                let (res, log) := detect rest image credential NormalizationError in
                (res, Invoked (kind p) :: log)
            end
        | Throw _ =>
            let (res, log) := detect rest image credential AllProvidersFailedError in
            (res, Invoked (kind p) :: log)
        end
      else detect rest image credential last
  end.

Section Service.
Variable HUGGINGFACE_API_KEY : option jsstring.
Variable sv : Route.Services.
(** the enhanced backend, called with the caller's credential *)
Variable enhanced_call : Form.File -> jsstring -> Outcome json.
(** whether the image decoder accepts the upload *)
Variable decodable : Form.File -> bool.

(** Modelled from the spec: the free provider of [backend/main.py]
    (section 4.3), here the route handler [Route.POST] given the image; an
    answer other than 200 is a failed call. *)
Definition free : Provider :=
  mkProvider FreeProvider
    (fun image _ =>
       let resp :=
         fst (Route.run HUGGINGFACE_API_KEY sv
                (Route.mkRequest (Ok [(lit "image", Form.FFile image)]))) in
       if N.eqb (Route.status resp) 200 then Ok (Route.body resp)
       else Throw (ErrorObj (lit "ProviderFailure") [])).

(** Modelled from the spec: the enhanced provider of [backend/main.py]
    (section 4.3), a call to the enhanced backend with the caller's
    credential. *)
Definition enhanced : Provider :=
  mkProvider EnhancedProvider
    (fun image credential =>
       match credential with
       | Some key => enhanced_call image key
       | None => Throw (ErrorObj (lit "ProviderFailure") [])
       end).

(** Modelled from the spec: the ordered provider list of
    [backend/main.py], enhanced first (section 4.3). *)
Definition providers : list Provider := [enhanced; free].

(** Modelled from the spec: the optional credential that
    [backend/main.py] reads from a request, its [api_key] field
    (section 6). *)
Definition credential_of (fd : Form.FormData) : option jsstring :=
  match Form.get (lit "api_key") fd with
  | Some (Form.FString key) => Some key
  | _ => None
  end.

(** Modelled from the spec: the detect-disease operation of
    [backend/main.py] (section 4.5), decode, then the chain with its
    normalizer. *)
Definition detectDisease (fd : Form.FormData)
  : Result (ProviderKind * DiseaseReport) * list Event :=
  match Form.get (lit "image") fd with
  | Some (Form.FFile image) =>
      if decodable image
      then detect providers image (credential_of fd) AllProvidersFailedError
      else (Failure DecodeError, [])
  | _ => (Failure DecodeError, [])
  end.
End Service.

End Chain.

(* ------------------------------------------------------------------ *)
(** ** The flower classifier of the prediction service

    The service behind [/predict] is [backend/main.py]; the page of module
    [Home] is its caller. The classifier is written here after the
    specification. *)

Module Classifier.

Import Chain.


(** Modelled from the spec: the class probability vector that the model of
    [backend/main.py] returns (section 3), the probabilities in the order of
    the labels; a probability is the rational value of its double. *)
Definition ClassProbabilityVector := list Q.



(** Modelled from the spec: the [argmax] of [backend/main.py]'s classifier
    (section 4.2), a scan that keeps the index of the largest entry seen so
    far, the first one among equals. *)
Fixpoint argmax_from (best_i : nat) (best : Q) (i : nat)
    (v : ClassProbabilityVector) : nat :=
  match v with
  | [] => best_i
  | p :: rest =>
      if Qle_bool p best then argmax_from best_i best (S i) rest
      else argmax_from i p (S i) rest
  end.

Definition argmax (v : ClassProbabilityVector) : option nat :=
  match v with
  | [] => None
  | p :: rest => Some (argmax_from 0 p 1 rest)
  end.


Section Service.
(** whether the image decoder accepts the upload *)
Variable decodable : Form.File -> bool.
(** the loaded model: the vector it computes for an image, [None] when the
    inference fails *)
Variable predict : Form.File -> option ClassProbabilityVector.

End Service.

End Classifier.

(* ------------------------------------------------------------------ *)
(** ** Notions the properties are stated with *)

Module Props.

Import Route.

Definition keys (j : json) : list jsstring :=
  match j with JObj fields => List.map fst fields | _ => [] end.

Definition is_string (j : json) : bool :=
  match j with JStr _ => true | _ => false end.

Definition values (j : json) : list json :=
  match j with JObj fields => List.map snd fields | _ => [] end.

(** The four-field body [{ diseaseName, causes, precautions, solutions }],
    each a string, in any order of the keys. *)
Definition four_field_shape (j : json) : Prop :=
  Permutation (keys j)
    [lit "diseaseName"; lit "causes"; lit "precautions"; lit "solutions"]
  /\ forallb is_string (values j) = true.

Definition resp_no_image : NextResponse :=
  mkResponse 400 (JObj [(lit "error", JStr (lit "No image provided"))]).

Definition resp_went_wrong : NextResponse :=
  mkResponse 500 (JObj [(lit "error", JStr (lit "Something went wrong"))]).

(** The answer to a request whose image was classified with [top] first and
    whose search returned [searchResults]. *)
Definition report_response (top : ClassificationEntry) (searchResults : jsval)
  : NextResponse :=
  let parsed := parseSearchResults searchResults in
  NextResponse_json
    [(lit "diseaseName", Some (JStr (label top)));
     (lit "identificationConfidence", Some (JNum (score top)));
     (lit "causes", causes parsed);
     (lit "precautions", precautions parsed);
     (lit "solutions", solutions parsed)] 200.

(** The search results as a list: the array under [organic_results], no
    result at all when there is none to index; [None] for an object that is
    not an array but could still be indexed. *)
Definition search_results (searchResults : jsval) : option (list json) :=
  match opt_prop searchResults (lit "organic_results") with
  | Some (JArr results) => Some results
  | Some (JObj _) => None
  | _ => Some []
  end.

(** The snippet of a search result, the placeholder when the result is
    missing or has no usable snippet. *)
Definition snippet_or_NA (result : option json) : jsval :=
  match result with
  | Some (JObj fields) =>
      match obj_get (lit "snippet") fields with
      | Some v => if truthy (Some v) then Some v else NA
      | None => NA
      end
  | _ => NA
  end.

(** causes, precautions, solutions by position *)
Definition field_at (p : ParsedResults) (i : nat) : jsval :=
  match i with
  | 0 => causes p
  | 1 => precautions p
  | _ => solutions p
  end.

(** The largest score of a classification result. *)
Fixpoint max_score (l : list ClassificationEntry) : option Q :=
  match l with
  | [] => None
  | e :: rest =>
      match max_score rest with
      | None => Some (score e)
      | Some m => Some (if Qle_bool m (score e) then score e else m)
      end
  end.

(** The entry with the largest score, the first one among equals. *)
Fixpoint argmax_from (best : ClassificationEntry) (l : list ClassificationEntry)
  : ClassificationEntry :=
  match l with
  | [] => best
  | e :: rest =>
      if Qle_bool (score e) (score best) then argmax_from best rest
      else argmax_from e rest
  end.

Definition argmax (l : list ClassificationEntry) : option ClassificationEntry :=
  match l with
  | [] => None
  | e :: rest => Some (argmax_from e rest)
  end.

(** The response reports the maximum score as its confidence and the label
    of the argmax as its prediction. *)
Definition reports_max (classificationResult : list ClassificationEntry)
    (resp : NextResponse) : Prop :=
  exists best m q,
    argmax classificationResult = Some best /\
    max_score classificationResult = Some m /\
    opt_prop (Some (body resp)) (lit "identificationConfidence") = Some (JNum q) /\
    (q == m)%Q /\
    opt_prop (Some (body resp)) (lit "diseaseName") = Some (JStr (label best)).


(** The four fields of a parsed response, as the page reads them. *)
Definition info_of (data : json) : Page.DiseaseInfo :=
  Page.mkInfo (opt_prop (Some data) (lit "diseaseName"))
              (opt_prop (Some data) (lit "causes"))
              (opt_prop (Some data) (lit "precautions"))
              (opt_prop (Some data) (lit "solutions")).

Definition is_fetch (e : Page.Event) : bool :=
  match e with Page.EvFetch _ _ _ => true | _ => false end.

(** A report with its four fields, none of them empty. *)
Definition valid_report (r : Chain.DiseaseReport) : Prop :=
  Chain.diseaseName r <> [] /\ Chain.causes r <> []
  /\ Chain.precautions r <> [] /\ Chain.solutions r <> [].

End Props.

(* ------------------------------------------------------------------ *)
(** ** Concrete inputs *)

Module Examples.

Import Route.

Definition leaf : Form.File :=
  Form.mkFile (lit "leaf.png") (lit "image/png") [137; 80; 78; 71]%N.

Definition one_result (snippet : string) : json :=
  JObj [(lit "title", JStr (lit "t")); (lit "snippet", JStr (lit snippet))].

Definition two_results : jsval :=
  Some (JObj [(lit "organic_results",
               JArr [one_result "fungal spores"; one_result "air circulation"])]).

Definition sorted : list ClassificationEntry :=
  [mkEntry (lit "rust") (9 # 10)%Q; mkEntry (lit "healthy") (1 # 10)%Q].

Definition services (answer : list ClassificationEntry) : Services :=
  mkServices (fun _ _ _ => Ok answer) (fun _ => Ok two_results).

Definition failing_services : Services :=
  mkServices (fun _ _ _ => Throw (ErrorObj (lit "Error") (lit "401 Unauthorized hf_secret")))
             (fun _ => Ok two_results).

Definition upload : NextRequest :=
  mkRequest (Ok [(lit "image", Form.FFile leaf)]).

Definition to_string : json -> jsstring := fun _ => lit "[object Object]".

Definition report (name : string) : json :=
  JObj [(lit "diseaseName", JStr (lit name));
        (lit "causes", JStr (lit "fungal spores"));
        (lit "precautions", JStr (lit "air circulation"));
        (lit "solutions", JStr (lit "fungicide"))].

(** A server that answers 200 with the given body. *)
Definition server (data : json) : Page.Network :=
  Page.mkNetwork (fun _ _ => Ok (Page.mkFetchResponse true (Ok data))).

Definition form : Form.FormData := [(lit "image", Form.FFile leaf)].

Definition typed (key : string) : Page.State :=
  Page.setGeminiKey (lit key) Page.initialState.

(** An enhanced backend that cannot be reached. *)
Definition unreachable_enhanced : Form.File -> jsstring -> Outcome json :=
  fun _ _ => Throw (ErrorObj (lit "Error") (lit "ECONNREFUSED")).

Definition decodable : Form.File -> bool :=
  fun f => negb (N.eqb (Form.file_size f) 0).

Definition form_with_key : Form.FormData :=
  [(lit "image", Form.FFile leaf); (lit "api_key", Form.FString (lit "AIza-key"))].

(** A classifier whose first entry has an empty label. *)
Definition nameless : list ClassificationEntry :=
  [mkEntry [] (9 # 10)%Q].


End Examples.

(* ------------------------------------------------------------------ *)
(** ** What the disease-detection page renders *)

Module PageView.

Import Page.

(** The text of the Mode badge: [geminiKey ? 'Enhanced AI' : 'Free API']. *)
Definition mode_badge (st : State) : jsstring :=
  if negb (is_empty (geminiKey st)) then lit "Enhanced AI" else lit "Free API".

End PageView.

(* ------------------------------------------------------------------ *)
(** ** The flower page *)

Module Home.

(** [PredictionState]; a field that is [null] is [None]. *)
Record PredictionState : Type := mkPrediction {
  prediction : jsval;
  confidence : jsval;
  error : option jsstring
}.

Definition initialState : PredictionState := mkPrediction None None None.

(** The component's [useState] cells. *)
Record State : Type := mkState {
  state : PredictionState;
  isPending : bool;
  imagePreview : option jsstring
}.

Definition initial : State := mkState initialState false None.

Definition setState (v : PredictionState) (st : State) : State :=
  mkState v (isPending st) (imagePreview st).
Definition setIsPending (v : bool) (st : State) : State :=
  mkState (state st) v (imagePreview st).
Definition setImagePreview (v : option jsstring) (st : State) : State :=
  mkState (state st) (isPending st) v.

Inductive Event : Type :=
| EvFetch (url : jsstring) (method : jsstring) (body : Form.FormData)
| EvConsoleError (e : thrown).

Record World : Type := mkWorld {
  ui : State;
  out : list Event
}.

Definition Handler := M World.

Definition set (f : State -> State) : Handler unit :=
  modify (fun w => mkWorld (f (ui w)) (out w)).

Definition emit (e : Event) : Handler unit :=
  modify (fun w => mkWorld (ui w) (out w ++ [e])).

Definition msg_select_image : jsstring := lit "Please select an image to upload.".
Definition msg_unknown : jsstring := lit "An unknown error occurred.".
Definition msg_failed : jsstring := lit "Failed to get prediction from server.".
Definition msg_invalid : jsstring := lit "Invalid response from prediction API.".
Definition msg_try_later : jsstring :=
  lit "Could not get prediction. Please try again later.".

(** [typeof v === 'number'] *)
Definition is_number (v : jsval) : bool :=
  match v with Some (JNum _) => true | _ => false end.

Section Handlers.
(** [process.env.NEXT_PUBLIC_API_URL] *)
Variable NEXT_PUBLIC_API_URL : option jsstring.
Variable net : Page.Network.
(** ToString of a value that is not a string *)
Variable to_string : json -> jsstring.

(** [`${process.env.NEXT_PUBLIC_API_URL}/predict`] *)
Definition endpoint : jsstring :=
  match NEXT_PUBLIC_API_URL with
  | Some u => u
  | None => lit "undefined"
  end ++ lit "/predict".

(** The [try] block of [handleSubmit]. *)
Definition submit_body (formData : Form.FormData) : Handler unit :=
  emit (EvFetch endpoint (lit "POST") formData) ;;
  response <- await (Page.fetch net endpoint formData) ;;
  if negb (Page.ok response) then
    errorData <-
      try_catch (await (Page.json_body response))
                (fun _ => ret (JObj [(lit "detail", JStr msg_unknown)])) ;;
    detail <- await (get_prop (Some errorData) (lit "detail")) ;;
    throw (Page.new_Error to_string (or_else detail (Some (JStr msg_failed))))
  else
    data <- await (Page.json_body response) ;;
    prediction <- await (get_prop (Some data) (lit "prediction")) ;;
    if negb (truthy prediction)
    then throw (Page.new_Error to_string (Some (JStr msg_invalid)))
    else
    confidence <- await (get_prop (Some data) (lit "confidence")) ;;
    if negb (is_number confidence)
    then throw (Page.new_Error to_string (Some (JStr msg_invalid)))
    else set (setState (mkPrediction prediction confidence None)).

(** The [catch] block of [handleSubmit]. *)
Definition submit_catch (error : thrown) : Handler unit :=
  emit (EvConsoleError error) ;;
  let errorMessage :=
    match error with
    | ErrorObj _ message => message
    | NonError _ => msg_try_later
    end in
  set (setState (mkPrediction None None (Some errorMessage))).

Definition handleSubmit (formData : Form.FormData) : Handler unit :=
  match Form.get (lit "image") formData with
  | Some (Form.FFile imageFile) =>
      if N.eqb (Form.file_size imageFile) 0 then
        set (setState (mkPrediction None None (Some msg_select_image)))
      else
        set (setIsPending true) ;;
        set (setState initialState) ;;
        try_finally
          (try_catch (submit_body formData) submit_catch)
          (set (setIsPending false))
  | _ => set (setState (mkPrediction None None (Some msg_select_image)))
  end.

(** [reader.onloadend] of [handleFileChange]; [result] is [null] after a
    failed read. *)
Definition handleFileChange (result : option jsstring) : Handler unit :=
  set (setImagePreview result) ;;
  set (setState initialState).

Definition handleRemoveImage : Handler unit :=
  set (setImagePreview None) ;;
  set (setState initialState).

Definition after (h : Handler unit) (st : State) : State :=
  ui (snd (h (mkWorld st []))).

Definition trace (h : Handler unit) (st : State) : list Event :=
  out (snd (h (mkWorld st []))).
End Handlers.

End Home.

(* ------------------------------------------------------------------ *)
(** ** Further notions and inputs *)

Module Props2.

(** A server that hands out the answer of the route handler: a status from
    200 to 299 is [ok]. *)
Definition serving (resp : Route.NextResponse) : Page.Network :=
  Page.mkNetwork
    (fun _ _ =>
       Ok (Page.mkFetchResponse
             (N.leb 200 (Route.status resp) && N.leb (Route.status resp) 299)
             (Ok (Route.body resp)))).

(** A network on which every call is rejected. *)
Definition rejecting (e : thrown) : Page.Network :=
  Page.mkNetwork (fun _ _ => Throw e).

(** A server that answers with an error status and the given body. *)
Definition refusing (body : Outcome json) : Page.Network :=
  Page.mkNetwork (fun _ _ => Ok (Page.mkFetchResponse false body)).

(** A prediction state in which prediction and error exclude each other: a
    prediction comes with a numeric confidence and no error, an error with
    neither prediction nor confidence. *)
Definition consistent (s : Home.PredictionState) : Prop :=
  (Home.prediction s <> None ->
   truthy (Home.prediction s) = true
   /\ Home.is_number (Home.confidence s) = true
   /\ Home.error s = None)
  /\ (Home.error s <> None ->
      Home.prediction s = None /\ Home.confidence s = None).

Definition is_console_error (e : Route.Event) : bool :=
  match e with Route.EvConsoleError _ => true | _ => false end.

End Props2.

(* ------------------------------------------------------------------ *)
(** ** Facts about JavaScript values *)

Unset Implicit Arguments.

Module JsFacts.

Lemma streq_refl (s : jsstring) : streq s s = true.
Proof.
  induction s as [|c s IH]; simpl; [reflexivity|].
  now rewrite N.eqb_refl, IH.
Qed.

Lemma streq_eq (a b : jsstring) : streq a b = true <-> a = b.
Proof.
  split.
  - revert b. induction a as [|x a IH]; intros [|y b] H; simpl in H;
      try discriminate; [reflexivity|].
    apply andb_true_iff in H. destruct H as [Hx Hab].
    apply N.eqb_eq in Hx. apply IH in Hab. now subst.
  - intros ->. apply streq_refl.
Qed.

Lemma truthy_some (v : jsval) : truthy v = true -> exists j, v = Some j.
Proof. destruct v as [j|]; [now exists j | discriminate]. Qed.

Lemma truthy_not_empty_string (v : jsval) : truthy v = true -> v <> Some (JStr []).
Proof. intros H ->. discriminate. Qed.

Lemma or_else_truthy (a b : jsval) :
  truthy b = true -> truthy (or_else a b) = true.
Proof. intros Hb. unfold or_else. destruct (truthy a) eqn:Ha; assumption. Qed.

Lemma or_else_cases (a b : jsval) :
  (truthy a = true /\ or_else a b = a) \/ (truthy a = false /\ or_else a b = b).
Proof. unfold or_else. destruct (truthy a); auto. Qed.

End JsFacts.

(* ------------------------------------------------------------------ *)
(** ** The route handler *)

Module RouteFacts.

Import Route Props JsFacts.

Lemma NA_truthy : truthy NA = true.
Proof. reflexivity. Qed.

Lemma parsed_fields_present (sr : jsval) :
  exists c p s,
    parseSearchResults sr = mkParsed (Some c) (Some p) (Some s)
    /\ truthy (Some c) = true /\ truthy (Some p) = true /\ truthy (Some s) = true.
Proof.
  unfold parseSearchResults.
  set (r := opt_prop sr (lit "organic_results")).
  destruct (truthy_some _ (or_else_truthy (opt_prop (opt_index r 0) (lit "snippet")) NA NA_truthy)) as [c Hc].
  destruct (truthy_some _ (or_else_truthy (opt_prop (opt_index r 1) (lit "snippet")) NA NA_truthy)) as [p Hp].
  destruct (truthy_some _ (or_else_truthy (opt_prop (opt_index r 2) (lit "snippet")) NA NA_truthy)) as [s Hs].
  exists c, p, s. rewrite Hc, Hp, Hs. repeat split.
  - rewrite <- Hc. apply or_else_truthy, NA_truthy.
  - rewrite <- Hp. apply or_else_truthy, NA_truthy.
  - rewrite <- Hs. apply or_else_truthy, NA_truthy.
Qed.

Ltac run_handler :=
  unfold run, POST, try_catch, bind, await, ret, throw, emit, modify.

(** The three ways the handler can answer. *)
Lemma run_cases (key : option jsstring) (sv : Services) (req : NextRequest) :
  fst (run key sv req) = resp_no_image
  \/ fst (run key sv req) = resp_went_wrong
  \/ exists fd data top rest sr,
       req_formData req = Ok fd
       /\ Form.get (lit "image") fd = Some data
       /\ Form.entry_truthy (Some data) = true
       /\ hf_imageClassification sv key data imageClassificationModel = Ok (top :: rest)
       /\ google_web_search sv (search_query (label top)) = Ok sr
       /\ fst (run key sv req) = report_response top sr.
Proof.
  run_handler.
  destruct (req_formData req) as [fd|e] eqn:Hreq; [|right; left; reflexivity].
  destruct (Form.get (lit "image") fd) as [data|] eqn:Hget; [|left; reflexivity].
  destruct (Form.entry_truthy (Some data)) eqn:Htruthy; [|left; reflexivity].
  cbn [negb].
  destruct (hf_imageClassification sv key data imageClassificationModel)
    as [[|top rest]|e] eqn:Hhf;
    [right; left; reflexivity| |right; left; reflexivity].
  cbn [nth_error].
  destruct (google_web_search sv (search_query (label top))) as [sr|e] eqn:Hs;
    [|right; left; reflexivity].
  right; right. exists fd, data, top, rest, sr. repeat split; auto.
Qed.

Lemma report_response_body (top : ClassificationEntry) (sr : jsval) :
  exists c p s,
    parseSearchResults sr = mkParsed (Some c) (Some p) (Some s)
    /\ truthy (Some c) = true /\ truthy (Some p) = true /\ truthy (Some s) = true
    /\ report_response top sr =
       mkResponse 200
         (JObj [(lit "diseaseName", JStr (label top));
                (lit "identificationConfidence", JNum (score top));
                (lit "causes", c);
                (lit "precautions", p);
                (lit "solutions", s)]).
Proof.
  destruct (parsed_fields_present sr) as (c & p & s & Hparsed & Hc & Hp & Hs).
  exists c, p, s. repeat split; auto.
  unfold report_response. rewrite Hparsed. reflexivity.
Qed.

Lemma report_response_status (top : ClassificationEntry) (sr : jsval) :
  status (report_response top sr) = 200%N.
Proof. reflexivity. Qed.

Lemma report_response_confidence (top : ClassificationEntry) (sr : jsval) :
  opt_prop (Some (body (report_response top sr))) (lit "identificationConfidence")
  = Some (JNum (score top)).
Proof.
  destruct (report_response_body top sr) as (c & p & s & _ & _ & _ & _ & ->).
  reflexivity.
Qed.

Lemma report_response_name (top : ClassificationEntry) (sr : jsval) :
  opt_prop (Some (body (report_response top sr))) (lit "diseaseName")
  = Some (JStr (label top)).
Proof.
  destruct (report_response_body top sr) as (c & p & s & _ & _ & _ & _ & ->).
  reflexivity.
Qed.

(** A request that fails is answered with one of the two fixed bodies. *)
Lemma run_failure (key : option jsstring) (sv : Services) (req : NextRequest) :
  status (fst (run key sv req)) <> 200%N ->
  fst (run key sv req) = resp_no_image \/ fst (run key sv req) = resp_went_wrong.
Proof.
  intros Hst.
  destruct (run_cases key sv req) as [H|[H|(fd & data & top & rest & sr & _ & _ & _ & _ & _ & H)]];
    auto.
  rewrite H in Hst. now rewrite report_response_status in Hst.
Qed.

(** A request that succeeds went through both steps. *)
Lemma run_success (key : option jsstring) (sv : Services) (req : NextRequest) :
  status (fst (run key sv req)) = 200%N ->
  exists fd data top rest sr,
    req_formData req = Ok fd
    /\ Form.get (lit "image") fd = Some data
    /\ Form.entry_truthy (Some data) = true
    /\ hf_imageClassification sv key data imageClassificationModel = Ok (top :: rest)
    /\ google_web_search sv (search_query (label top)) = Ok sr
    /\ fst (run key sv req) = report_response top sr.
Proof.
  intros Hst.
  destruct (run_cases key sv req) as [H|[H|H]]; auto;
    rewrite H in Hst; discriminate.
Qed.

(** The handler's answer and its calls, given how the services answer. *)
Lemma run_report (key : option jsstring) (sv : Services) (req : NextRequest)
    fd data top rest sr :
  req_formData req = Ok fd ->
  Form.get (lit "image") fd = Some data ->
  Form.entry_truthy (Some data) = true ->
  hf_imageClassification sv key data imageClassificationModel = Ok (top :: rest) ->
  google_web_search sv (search_query (label top)) = Ok sr ->
  run key sv req =
    (report_response top sr,
     [EvImageClassification key data imageClassificationModel;
      EvWebSearch (search_query (label top))]).
Proof.
  intros Hreq Hget Htruthy Hhf Hs. run_handler.
  rewrite Hreq, Hget, Htruthy. cbn [negb]. rewrite Hhf. cbn [nth_error].
  rewrite Hs. reflexivity.
Qed.

(** Without a classification there is no name, and the request fails. *)
Lemma run_no_classification (key : option jsstring) (sv : Services)
    (req : NextRequest) fd data :
  req_formData req = Ok fd ->
  Form.get (lit "image") fd = Some data ->
  Form.entry_truthy (Some data) = true ->
  hf_imageClassification sv key data imageClassificationModel = Ok [] ->
  fst (run key sv req) = resp_went_wrong.
Proof.
  intros Hreq Hget Htruthy Hhf. run_handler.
  rewrite Hreq, Hget, Htruthy. cbn [negb]. rewrite Hhf. reflexivity.
Qed.

Lemma POST_never_throws (key : option jsstring) (sv : Services) (req : NextRequest) log :
  exists resp log', POST key sv req log = (Ok resp, log').
Proof.
  run_handler.
  destruct (req_formData req) as [fd|e]; [|do 2 eexists; reflexivity].
  destruct (Form.get (lit "image") fd) as [data|]; [|do 2 eexists; reflexivity].
  destruct (Form.entry_truthy (Some data)); [|do 2 eexists; reflexivity].
  cbn [negb].
  destruct (hf_imageClassification sv key data imageClassificationModel)
    as [[|top rest]|e];
    [do 2 eexists; reflexivity| |do 2 eexists; reflexivity].
  cbn [nth_error].
  destruct (google_web_search sv (search_query (label top)));
    do 2 eexists; reflexivity.
Qed.

Lemma max_score_bound (l : list ClassificationEntry) (b m : Q) :
  Forall (fun e => (score e <= b)%Q) l -> max_score l = Some m -> (m <= b)%Q.
Proof.
  revert m. induction l as [|e l IH]; intros m Hall Hm; [discriminate|].
  inversion Hall as [|? ? He Hl]; subst. simpl in Hm.
  destruct (max_score l) as [m'|].
  - destruct (Qle_bool m' (score e)); injection Hm as <-; auto.
  - now injection Hm as <-.
Qed.

Lemma max_score_head (top : ClassificationEntry) (rest : list ClassificationEntry) :
  Forall (fun e => (score e <= score top)%Q) rest ->
  max_score (top :: rest) = Some (score top).
Proof.
  intros Hall. simpl. destruct (max_score rest) as [m|] eqn:Hm; [|reflexivity].
  apply (max_score_bound rest (score top) m Hall) in Hm.
  apply Qle_bool_iff in Hm. now rewrite Hm.
Qed.

Lemma argmax_from_head (top : ClassificationEntry) (rest : list ClassificationEntry) :
  Forall (fun e => (score e <= score top)%Q) rest ->
  argmax_from top rest = top.
Proof.
  induction 1 as [|e rest He _ IH]; [reflexivity|].
  simpl. apply Qle_bool_iff in He. now rewrite He.
Qed.

(** [argmax] and [max_score] agree: the entry the one picks has the score
    the other computes. *)
Lemma argmax_from_score (l : list ClassificationEntry) (b : ClassificationEntry) :
  (score (argmax_from b l) ==
   match max_score l with
   | None => score b
   | Some m => if Qle_bool m (score b) then score b else m
   end)%Q.
Proof.
  revert b. induction l as [|e l IH]; intros b; [reflexivity|].
  simpl. destruct (Qle_bool (score e) (score b)) eqn:Heb.
  - rewrite IH. destruct (max_score l) as [m|].
    + destruct (Qle_bool m (score e)) eqn:Hme.
      * rewrite Heb.
        apply Qle_bool_iff in Heb, Hme.
        assert (Hmb : (m <= score b)%Q) by lra.
        apply Qle_bool_iff in Hmb. rewrite Hmb. reflexivity.
      * reflexivity.
    + rewrite Heb. reflexivity.
  - rewrite IH. destruct (max_score l) as [m|].
    + destruct (Qle_bool m (score e)) eqn:Hme.
      * rewrite Heb. reflexivity.
      * destruct (Qle_bool m (score b)) eqn:Hmb; [|reflexivity].
        apply Qle_bool_iff in Hmb.
        assert (Hbe : ~ (score e <= score b)%Q)
          by (intros H; apply Qle_bool_iff in H; congruence).
        assert (Hem : ~ (m <= score e)%Q)
          by (intros H; apply Qle_bool_iff in H; congruence).
        lra.
    + rewrite Heb. reflexivity.
Qed.

Lemma argmax_is_max (l : list ClassificationEntry) (best : ClassificationEntry) (m : Q) :
  argmax l = Some best -> max_score l = Some m -> (score best == m)%Q.
Proof.
  destruct l as [|e l]; [discriminate|]. simpl.
  intros Hbest Hm. injection Hbest as <-. rewrite argmax_from_score.
  destruct (max_score l) as [m'|]; injection Hm as <-; reflexivity.
Qed.

(** The handler reads the [image] field of the form and no other: a
    credential appended to the request changes nothing. *)
Lemma get_image_append (fd : Form.FormData) (v : Form.FormDataEntryValue) :
  Form.get (lit "image") (Form.append fd (lit "api_key") v)
  = Form.get (lit "image") fd.
Proof.
  unfold Form.append. induction fd as [|[k w] fd IH]; [reflexivity|].
  cbn [Form.get app]. destruct (streq (lit "image") k); [reflexivity|exact IH].
Qed.

Lemma run_ignores_api_key (key : option jsstring) (sv : Services)
    (fd : Form.FormData) (v : Form.FormDataEntryValue) :
  run key sv (mkRequest (Ok (Form.append fd (lit "api_key") v)))
  = run key sv (mkRequest (Ok fd)).
Proof.
  run_handler. cbn [req_formData]. rewrite get_image_append. reflexivity.
Qed.

End RouteFacts.

(* ------------------------------------------------------------------ *)
(** ** Properties of the route handler *)

Module RouteSpec.

Import Route Props JsFacts RouteFacts.

Lemma snippet_field (r : jsval) :
  or_else (opt_prop r (lit "snippet")) NA = snippet_or_NA r.
Proof.
  destruct r as [[| | | | |fields]|]; try reflexivity.
  unfold snippet_or_NA, opt_prop, or_else.
  destruct (obj_get (lit "snippet") fields); reflexivity.
Qed.

Lemma index_of_non_list (v : jsval) (i : nat) :
  (forall xs, v <> Some (JArr xs)) -> (forall fs, v <> Some (JObj fs)) ->
  or_else (opt_prop (opt_index v i) (lit "snippet")) NA = NA.
Proof.
  intros Harr Hobj.
  destruct v as [[| | |s|xs|fs]|]; try reflexivity.
  - unfold opt_index. destruct (nth_error s i); reflexivity.
  - now destruct (Harr xs).
  - now destruct (Hobj fs).
Qed.

(** C6. When the raw output of the web-search provider is normalized, the
    snippets of the first three search results become causes, precautions
    and solutions, in this order, and the literal "N/A" stands in for every
    one of the three the provider did not supply (no such result, a result
    without a snippet, an empty snippet). *)
Theorem parseSearchResults_positional (searchResults : jsval) (results : list json) (i : nat) :
  search_results searchResults = Some results ->
  i < 3 ->
  field_at (parseSearchResults searchResults) i = snippet_or_NA (nth_error results i).
Proof.
  intros Hres Hi. unfold search_results in Hres.
  assert (Hfield : field_at (parseSearchResults searchResults) i =
                   or_else (opt_prop (opt_index (opt_prop searchResults (lit "organic_results")) i)
                                     (lit "snippet")) NA).
  { destruct i as [|[|[|i]]]; try reflexivity. lia. }
  rewrite Hfield. clear Hfield.
  destruct (opt_prop searchResults (lit "organic_results")) as [[| | |s|xs|fs]|] eqn:E;
    try discriminate; injection Hres as <-;
    try (rewrite index_of_non_list by (intros; discriminate);
         destruct i; reflexivity).
  unfold opt_index. apply snippet_field.
Qed.

Lemma parseSearchResults_positional_witness :
  field_at (parseSearchResults Examples.two_results) 1
    = Some (JStr (lit "air circulation"))
  /\ field_at (parseSearchResults Examples.two_results) 2 = NA.
Proof.
  split.
  - exact (parseSearchResults_positional Examples.two_results
             [Examples.one_result "fungal spores"; Examples.one_result "air circulation"]
             1 eq_refl (le_S _ _ (le_n 2))).
  - exact (parseSearchResults_positional Examples.two_results
             [Examples.one_result "fungal spores"; Examples.one_result "air circulation"]
             2 eq_refl (le_n 3)).
Defined.

(** C3, as the claim states it, fails: a successful answer of the handler
    carries a fifth field next to the four of the claim. *)
Lemma POST_body_not_four_fields :
  status (fst (run None (Examples.services Examples.sorted) Examples.upload)) = 200%N
  /\ ~ four_field_shape
        (body (fst (run None (Examples.services Examples.sorted) Examples.upload))).
Proof.
  split; [reflexivity|].
  intros [Hperm _]. apply Permutation_length in Hperm.
  vm_compute in Hperm. discriminate.
Qed.

(** C3, amended. The body of every successful answer has exactly five
    fields, in this order: [diseaseName], the label of the first entry of the
    classifier's answer; [identificationConfidence], the score of that entry;
    and [causes], [precautions], [solutions], the three fields that
    [parseSearchResults] made of the search for that label, none of them
    missing or empty. *)
Theorem POST_success_body (key : option jsstring) (sv : Services) (req : NextRequest) :
  status (fst (run key sv req)) = 200%N ->
  exists fd data top rest sr c p s,
    req_formData req = Ok fd
    /\ Form.get (lit "image") fd = Some data
    /\ hf_imageClassification sv key data imageClassificationModel = Ok (top :: rest)
    /\ google_web_search sv (search_query (label top)) = Ok sr
    /\ parseSearchResults sr = mkParsed (Some c) (Some p) (Some s)
    /\ body (fst (run key sv req)) =
         JObj [(lit "diseaseName", JStr (label top));
               (lit "identificationConfidence", JNum (score top));
               (lit "causes", c);
               (lit "precautions", p);
               (lit "solutions", s)]
    /\ truthy (Some c) = true /\ truthy (Some p) = true /\ truthy (Some s) = true.
Proof.
  intros Hst.
  destruct (run_success key sv req Hst)
    as (fd & data & top & rest & sr & Hreq & Hget & _ & Hhf & Hsearch & Hresp).
  destruct (report_response_body top sr)
    as (c & p & s & Hparsed & Hc & Hp & Hs & Hbody).
  exists fd, data, top, rest, sr, c, p, s. rewrite Hresp, Hbody. auto 10.
Qed.

Lemma POST_success_body_witness :
  body (fst (run None (Examples.services Examples.sorted) Examples.upload)) =
    JObj [(lit "diseaseName", JStr (lit "rust"));
          (lit "identificationConfidence", JNum (9 # 10)%Q);
          (lit "causes", JStr (lit "fungal spores"));
          (lit "precautions", JStr (lit "air circulation"));
          (lit "solutions", JStr (lit "N/A"))].
Proof.
  destruct (POST_success_body None (Examples.services Examples.sorted)
              Examples.upload eq_refl)
    as (fd & data & top & rest & sr & c & p & s
        & _ & _ & Hhf & Hsearch & Hparsed & Hbody & _).
  injection Hhf as <- _. injection Hsearch as <-.
  injection Hparsed as <- <- <-. exact Hbody.
Defined.

(** C8. A request that fails is answered with a fixed, generic message and
    nothing else: the body is [{ error: 'No image provided' }] or
    [{ error: 'Something went wrong' }], whatever was thrown, whichever
    service threw it and whatever the access token is; two failed requests
    with the same status get the same answer. *)
Theorem POST_error_response_generic
    (key key' : option jsstring) (sv sv' : Services) (req req' : NextRequest) :
  status (fst (run key sv req)) <> 200%N ->
  status (fst (run key' sv' req')) = status (fst (run key sv req)) ->
  (fst (run key sv req) = resp_no_image \/ fst (run key sv req) = resp_went_wrong)
  /\ fst (run key' sv' req') = fst (run key sv req).
Proof.
  intros Hfail Hsame.
  assert (Hfail' : status (fst (run key' sv' req')) <> 200%N) by now rewrite Hsame.
  destruct (run_failure key sv req Hfail) as [H|H];
    destruct (run_failure key' sv' req' Hfail') as [H'|H'];
    rewrite H, H' in *; try discriminate; auto.
Qed.

Lemma POST_error_response_generic_witness :
  (fst (run (Some (lit "hf_secret")) Examples.failing_services Examples.upload)
     = resp_no_image
   \/ fst (run (Some (lit "hf_secret")) Examples.failing_services Examples.upload)
     = resp_went_wrong)
  /\ fst (run None (Examples.services []) Examples.upload)
     = fst (run (Some (lit "hf_secret")) Examples.failing_services Examples.upload).
Proof.
  apply (POST_error_response_generic
           (Some (lit "hf_secret")) None
           Examples.failing_services (Examples.services [])
           Examples.upload Examples.upload).
  - vm_compute. discriminate.
  - reflexivity.
Defined.

(** X19. The confidence and the name the handler reports are the score and
    the label of the first entry of the classifier's answer; they are the
    maximum of the scores and the label of the argmax whenever no other
    entry has a larger score than the first, as in an answer listed by
    descending score. *)
Theorem POST_reports_first_entry (key : option jsstring) (sv : Services)
    (req : NextRequest) fd data top rest :
  req_formData req = Ok fd ->
  Form.get (lit "image") fd = Some data ->
  hf_imageClassification sv key data imageClassificationModel = Ok (top :: rest) ->
  status (fst (run key sv req)) = 200%N ->
  opt_prop (Some (body (fst (run key sv req)))) (lit "identificationConfidence")
    = Some (JNum (score top))
  /\ opt_prop (Some (body (fst (run key sv req)))) (lit "diseaseName")
    = Some (JStr (label top))
  /\ (Forall (fun e => (score e <= score top)%Q) rest ->
      reports_max (top :: rest) (fst (run key sv req))).
Proof.
  intros Hreq Hget Hhf Hst.
  destruct (run_success key sv req Hst)
    as (fd' & data' & top' & rest' & sr & Hreq' & Hget' & _ & Hhf' & _ & Hresp).
  rewrite Hreq in Hreq'. injection Hreq' as <-.
  rewrite Hget in Hget'. injection Hget' as <-.
  rewrite Hhf in Hhf'. injection Hhf' as <- <-.
  rewrite Hresp.
  pose proof (report_response_confidence top sr) as Hconf.
  pose proof (report_response_name top sr) as Hname.
  repeat split; auto.
  intros Hmax. exists top, (score top), (score top).
  split; [simpl; now rewrite argmax_from_head|].
  split; [now apply max_score_head|].
  split; [assumption|].
  split; [reflexivity|assumption].
Qed.

Lemma POST_reports_first_entry_witness :
  reports_max Examples.sorted
    (fst (run None (Examples.services Examples.sorted) Examples.upload)).
Proof.
  apply (POST_reports_first_entry None (Examples.services Examples.sorted)
           Examples.upload [(lit "image", Form.FFile Examples.leaf)]
           (Form.FFile Examples.leaf)
           (mkEntry (lit "rust") (9 # 10)%Q) [mkEntry (lit "healthy") (1 # 10)%Q]
           eq_refl eq_refl eq_refl eq_refl).
  repeat constructor. simpl. unfold Qle. simpl. lia.
Defined.

End RouteSpec.

(* ------------------------------------------------------------------ *)
(** ** The page's handlers *)

Module PageFacts.

Import Page Props JsFacts.

Lemma trimStart_head (s : jsstring) c t :
  trimStart s = c :: t -> is_whitespace c = false.
Proof.
  induction s as [|x s IH]; simpl; [discriminate|].
  destruct (is_whitespace x) eqn:Hx; auto.
  intros [= <- _]. exact Hx.
Qed.

Lemma trimStart_nil (s : jsstring) :
  trimStart s = [] <-> forallb is_whitespace s = true.
Proof.
  induction s as [|x s IH]; simpl; [tauto|].
  destruct (is_whitespace x); simpl; [exact IH|].
  split; discriminate.
Qed.

Lemma forallb_rev {A} (f : A -> bool) (l : list A) :
  forallb f (rev l) = forallb f l.
Proof.
  induction l as [|x l IH]; [reflexivity|].
  simpl. rewrite forallb_app, IH. simpl. rewrite andb_true_r. apply andb_comm.
Qed.

Lemma trimEnd_nil (s : jsstring) :
  trimEnd s = [] <-> forallb is_whitespace s = true.
Proof.
  unfold trimEnd. rewrite <- (forallb_rev is_whitespace s), <- trimStart_nil.
  split; intros H.
  - apply (f_equal (@rev N)) in H. now rewrite rev_involutive in H.
  - now rewrite H.
Qed.

(** A key is blank after trimming exactly when it is made of whitespace. *)
Lemma trim_nil (s : jsstring) :
  trim s = [] <-> forallb is_whitespace s = true.
Proof.
  unfold trim. rewrite trimEnd_nil. split; intros H.
  - apply trimStart_nil. destruct (trimStart s) as [|c t] eqn:E; [reflexivity|].
    apply trimStart_head in E. simpl in H. rewrite E in H. discriminate.
  - apply trimStart_nil in H. now rewrite H.
Qed.

Lemma is_empty_nil (s : jsstring) : is_empty s = true <-> s = [].
Proof. destruct s; simpl; split; congruence. Qed.

Lemma get_prop_opt (data : json) (k : jsstring) :
  data <> JNull -> get_prop (Some data) k = Ok (opt_prop (Some data) k).
Proof. destruct data; try reflexivity. congruence. Qed.

Lemma json_null_dec (data : json) : data = JNull \/ data <> JNull.
Proof. destruct data; auto; right; discriminate. Qed.

Ltac run_page :=
  unfold after, trace, handleSubmit, submit_body, submit_catch, try_finally,
    try_catch, bind, await, ret, throw, gets, set, emit, modify.

Ltac page_simpl :=
  cbn [ui out fst snd negb
       diseaseInfo isPending imagePreview geminiKey showKeyInput error
       setIsPending setError setDiseaseInfo setImagePreview setGeminiKey
       setShowKeyInput].

Section Submit.
Variable env : option jsstring.
Variable net : Network.
Variable ts : json -> jsstring.
Variables (form : Form.FormData) (imageFile : Form.File) (st : State).
Hypothesis Hget : Form.get (lit "image") form = Some (Form.FFile imageFile).
Hypothesis Hsize : Form.file_size imageFile <> 0%N.


Lemma handleSubmit_accept_inv r :
  diseaseInfo (after (handleSubmit env net ts form) st) = Some r ->
  exists resp data,
    fetch net (endpoint env) (uploadFormData imageFile (geminiKey st)) = Ok resp /\ ok resp = true /\ json_body resp = Ok data
    /\ r = mkInfo (opt_prop (Some data) (lit "diseaseName"))
                  (opt_prop (Some data) (lit "causes"))
                  (opt_prop (Some data) (lit "precautions"))
                  (opt_prop (Some data) (lit "solutions"))
    /\ truthy (diseaseName r) = true /\ truthy (causes r) = true
    /\ truthy (precautions r) = true /\ truthy (solutions r) = true.
Proof.
  run_page. rewrite Hget.
  apply N.eqb_neq in Hsize. rewrite Hsize. page_simpl.
  destruct (fetch net (endpoint env) (uploadFormData imageFile (geminiKey st)))
    as [resp|e]; [|page_simpl; discriminate].
  destruct (ok resp) eqn:Hok; page_simpl.
  2:{ destruct (json_body resp) as [d|e]; page_simpl;
      [destruct (get_prop (Some d) (lit "detail"))|]; page_simpl; discriminate. }
  destruct (json_body resp) as [data|e] eqn:Hjson; [|page_simpl; discriminate].
  destruct (json_null_dec data) as [->|Hnn]; [page_simpl; discriminate|].
  rewrite !(get_prop_opt data) by assumption.
  destruct (truthy (opt_prop (Some data) (lit "diseaseName"))) eqn:Hd;
    page_simpl; [|discriminate].
  destruct (truthy (opt_prop (Some data) (lit "causes"))) eqn:Hc;
    page_simpl; [|discriminate].
  destruct (truthy (opt_prop (Some data) (lit "precautions"))) eqn:Hp;
    page_simpl; [|discriminate].
  destruct (truthy (opt_prop (Some data) (lit "solutions"))) eqn:Hs;
    page_simpl; [|discriminate].
  intros [= <-]. exists resp, data. page_simpl. auto 10.
Qed.

Lemma handleSubmit_accept resp data :
  fetch net (endpoint env) (uploadFormData imageFile (geminiKey st)) = Ok resp -> ok resp = true -> json_body resp = Ok data ->
  truthy (opt_prop (Some data) (lit "diseaseName")) = true ->
  truthy (opt_prop (Some data) (lit "causes")) = true ->
  truthy (opt_prop (Some data) (lit "precautions")) = true ->
  truthy (opt_prop (Some data) (lit "solutions")) = true ->
  after (handleSubmit env net ts form) st =
    setIsPending false
      (setDiseaseInfo
         (Some (mkInfo (opt_prop (Some data) (lit "diseaseName"))
                       (opt_prop (Some data) (lit "causes"))
                       (opt_prop (Some data) (lit "precautions"))
                       (opt_prop (Some data) (lit "solutions"))))
         (setDiseaseInfo None (setError None (setIsPending true st)))).
Proof.
  intros Hreq Hok Hjson Hd Hc Hp Hs.
  run_page. rewrite Hget.
  apply N.eqb_neq in Hsize. rewrite Hsize. page_simpl.
  rewrite Hreq, Hok, Hjson. page_simpl.
  assert (Hnn : data <> JNull) by (intros ->; discriminate).
  rewrite !(get_prop_opt data) by assumption.
  rewrite Hd, Hc, Hp, Hs. reflexivity.
Qed.

Lemma handleSubmit_reject resp data :
  fetch net (endpoint env) (uploadFormData imageFile (geminiKey st)) = Ok resp -> ok resp = true -> json_body resp = Ok data ->
  data <> JNull ->
  truthy (opt_prop (Some data) (lit "diseaseName")) = false
  \/ truthy (opt_prop (Some data) (lit "causes")) = false
  \/ truthy (opt_prop (Some data) (lit "precautions")) = false
  \/ truthy (opt_prop (Some data) (lit "solutions")) = false ->
  after (handleSubmit env net ts form) st =
    setIsPending false
      (setError (Some msg_invalid)
         (setDiseaseInfo None (setError None (setIsPending true st)))).
Proof.
  intros Hreq Hok Hjson Hnn Hmiss.
  run_page. rewrite Hget.
  apply N.eqb_neq in Hsize. rewrite Hsize. page_simpl.
  rewrite Hreq, Hok, Hjson. page_simpl.
  rewrite !(get_prop_opt data) by assumption.
  destruct (truthy (opt_prop (Some data) (lit "diseaseName"))); [|reflexivity].
  destruct (truthy (opt_prop (Some data) (lit "causes"))); [|reflexivity].
  destruct (truthy (opt_prop (Some data) (lit "precautions"))); [|reflexivity].
  destruct (truthy (opt_prop (Some data) (lit "solutions"))); [|reflexivity].
  destruct Hmiss as [H|[H|[H|H]]]; discriminate.
Qed.

Lemma handleSubmit_report_or_error :
  isPending (after (handleSubmit env net ts form) st) = false
  /\ (diseaseInfo (after (handleSubmit env net ts form) st) = None ->
      error (after (handleSubmit env net ts form) st) <> None).
Proof.
  run_page. rewrite Hget.
  apply N.eqb_neq in Hsize. rewrite Hsize. page_simpl.
  destruct (fetch net (endpoint env) (uploadFormData imageFile (geminiKey st)))
    as [resp|e]; [|page_simpl; split; [reflexivity|discriminate]].
  destruct (ok resp) eqn:Hok; page_simpl.
  2:{ destruct (json_body resp) as [d|e]; page_simpl;
      [destruct (get_prop (Some d) (lit "detail"))|]; page_simpl;
      (split; [reflexivity|discriminate]). }
  destruct (json_body resp) as [data|e];
    [|page_simpl; split; [reflexivity|discriminate]].
  destruct (json_null_dec data) as [->|Hnn];
    [page_simpl; split; [reflexivity|discriminate]|].
  rewrite !(get_prop_opt data) by assumption.
  destruct (truthy (opt_prop (Some data) (lit "diseaseName")));
    page_simpl; [|split; [reflexivity|discriminate]].
  destruct (truthy (opt_prop (Some data) (lit "causes")));
    page_simpl; [|split; [reflexivity|discriminate]].
  destruct (truthy (opt_prop (Some data) (lit "precautions")));
    page_simpl; [|split; [reflexivity|discriminate]].
  destruct (truthy (opt_prop (Some data) (lit "solutions")));
    page_simpl; split; try reflexivity; discriminate.
Qed.

Lemma handleSubmit_aborted message :
  fetch net (endpoint env) (uploadFormData imageFile (geminiKey st)) = Throw (ErrorObj (lit "AbortError") message) ->
  after (handleSubmit env net ts form) st =
    setIsPending false
      (setError (Some msg_timed_out)
         (setDiseaseInfo None (setError None (setIsPending true st)))).
Proof.
  intros Hreq. run_page. rewrite Hget.
  apply N.eqb_neq in Hsize. rewrite Hsize. page_simpl.
  rewrite Hreq. reflexivity.
Qed.

Lemma handleSubmit_trace_prefix :
  exists rest,
    trace (handleSubmit env net ts form) st =
      EvSetTimeout 60000
        :: EvFetch (endpoint env) (lit "POST")
                   (uploadFormData imageFile (geminiKey st))
        :: rest
    /\ Forall (fun e => match e with EvFetch _ _ _ => False | _ => True end) rest.
Proof.
  run_page. rewrite Hget.
  apply N.eqb_neq in Hsize. rewrite Hsize. page_simpl.
  destruct (fetch net (endpoint env) (uploadFormData imageFile (geminiKey st)))
    as [resp|e]; [|page_simpl; eexists; split; [reflexivity|repeat constructor]].
  destruct (ok resp) eqn:Hok; page_simpl.
  2:{ destruct (json_body resp) as [d|e]; page_simpl;
      [destruct (get_prop (Some d) (lit "detail"))|]; page_simpl;
      (eexists; split; [reflexivity|repeat constructor]). }
  destruct (json_body resp) as [data|e];
    [|page_simpl; eexists; split; [reflexivity|repeat constructor]].
  destruct (json_null_dec data) as [->|Hnn];
    [page_simpl; eexists; split; [reflexivity|repeat constructor]|].
  rewrite !(get_prop_opt data) by assumption.
  destruct (truthy (opt_prop (Some data) (lit "diseaseName")));
    page_simpl; [|eexists; split; [reflexivity|repeat constructor]].
  destruct (truthy (opt_prop (Some data) (lit "causes")));
    page_simpl; [|eexists; split; [reflexivity|repeat constructor]].
  destruct (truthy (opt_prop (Some data) (lit "precautions")));
    page_simpl; [|eexists; split; [reflexivity|repeat constructor]].
  destruct (truthy (opt_prop (Some data) (lit "solutions")));
    page_simpl; eexists; (split; [reflexivity|repeat constructor]).
Qed.
End Submit.


(** A submission without a usable image only sets the error. *)
Lemma handleSubmit_no_image env net ts form st :
  (forall f, Form.get (lit "image") form = Some (Form.FFile f) ->
             Form.file_size f = 0%N) ->
  after (handleSubmit env net ts form) st = setError (Some msg_select_image) st.
Proof.
  intros Hbad. run_page.
  destruct (Form.get (lit "image") form) as [[s|f]|]; try reflexivity.
  rewrite (Hbad f eq_refl). reflexivity.
Qed.

Lemma image_dec (form : Form.FormData) :
  (exists f, Form.get (lit "image") form = Some (Form.FFile f)
             /\ Form.file_size f <> 0%N)
  \/ (forall f, Form.get (lit "image") form = Some (Form.FFile f) ->
                Form.file_size f = 0%N).
Proof.
  destruct (Form.get (lit "image") form) as [[s|f]|]; try (right; discriminate).
  destruct (N.eq_dec (Form.file_size f) 0) as [E|E].
  - right. now intros f' [= <-].
  - left. now exists f.
Qed.

Lemma no_fetch_filter (l : list Event) :
  Forall (fun e => match e with EvFetch _ _ _ => False | _ => True end) l ->
  filter is_fetch l = [].
Proof.
  induction 1 as [|e l He _ IH]; [reflexivity|].
  destruct e; simpl; try assumption. contradiction.
Qed.

Lemma uploadFormData_blank (imageFile : Form.File) (key : jsstring) :
  trim key = [] ->
  uploadFormData imageFile key = [(lit "image", Form.FFile imageFile)].
Proof.
  intros Hblank. unfold uploadFormData. rewrite Hblank.
  cbn [is_empty negb]. rewrite andb_false_r. reflexivity.
Qed.

Lemma uploadFormData_key (imageFile : Form.File) (key : jsstring) :
  trim key <> [] ->
  uploadFormData imageFile key =
    [(lit "image", Form.FFile imageFile); (lit "api_key", Form.FString key)].
Proof.
  intros Hkey. unfold uploadFormData.
  destruct key as [|c key]; [now destruct Hkey|].
  destruct (trim (c :: key)) as [|c' t]; [now destruct Hkey|].
  reflexivity.
Qed.

End PageFacts.

(* ------------------------------------------------------------------ *)
(** ** Properties of the page and of the route handler together *)

Module PageSpec.

Import Page Props JsFacts PageFacts.

(** C4, as the claim states it, fails: for a first entry whose label is
    empty the route handler answers 200 with an empty [diseaseName], causes,
    precautions and solutions being present. *)
Lemma POST_answers_with_empty_name :
  Route.status (fst (Route.run None (Examples.services Examples.nameless)
                       Examples.upload)) = 200%N
  /\ Route.body (fst (Route.run None (Examples.services Examples.nameless)
                        Examples.upload)) =
     JObj [(lit "diseaseName", JStr []);
           (lit "identificationConfidence", JNum (9 # 10)%Q);
           (lit "causes", JStr (lit "fungal spores"));
           (lit "precautions", JStr (lit "air circulation"));
           (lit "solutions", JStr (lit "N/A"))].
Proof. split; reflexivity. Qed.

(** C4, amended. The route handler fails, with its 500 answer, when the
    disease name cannot be determined because the classifier returned no
    entry; it does not test the label, and answers 200 with the label of the
    first entry as [diseaseName], an empty one included. The page's
    [handleSubmit] rejects every response whose [diseaseName] is missing or
    empty, whatever causes, precautions and solutions it carries, with an
    error and no report, and every report it stores has a name that is not
    empty. *)
Theorem name_checked_by_page_not_route :
  (forall key sv req fd data,
      Route.req_formData req = Ok fd ->
      Form.get (lit "image") fd = Some data ->
      Form.entry_truthy (Some data) = true ->
      Route.hf_imageClassification sv key data Route.imageClassificationModel = Ok [] ->
      fst (Route.run key sv req) = resp_went_wrong)
  /\ (forall key sv req fd data top rest sr,
      Route.req_formData req = Ok fd ->
      Form.get (lit "image") fd = Some data ->
      Form.entry_truthy (Some data) = true ->
      Route.hf_imageClassification sv key data Route.imageClassificationModel
        = Ok (top :: rest) ->
      Route.google_web_search sv (Route.search_query (Route.label top)) = Ok sr ->
      Route.status (fst (Route.run key sv req)) = 200%N
      /\ opt_prop (Some (Route.body (fst (Route.run key sv req)))) (lit "diseaseName")
         = Some (JStr (Route.label top)))
  /\ (forall env net ts form imageFile st resp data,
      Form.get (lit "image") form = Some (Form.FFile imageFile) ->
      Form.file_size imageFile <> 0%N ->
      fetch net (endpoint env) (uploadFormData imageFile (geminiKey st)) = Ok resp ->
      ok resp = true ->
      json_body resp = Ok data ->
      truthy (opt_prop (Some data) (lit "diseaseName")) = false ->
      diseaseInfo (after (handleSubmit env net ts form) st) = None
      /\ error (after (handleSubmit env net ts form) st) <> None
      /\ (data <> JNull ->
          error (after (handleSubmit env net ts form) st) = Some msg_invalid))
  /\ (forall env net ts form imageFile st r,
      Form.get (lit "image") form = Some (Form.FFile imageFile) ->
      Form.file_size imageFile <> 0%N ->
      diseaseInfo (after (handleSubmit env net ts form) st) = Some r ->
      truthy (diseaseName r) = true /\ diseaseName r <> Some (JStr [])).
Proof.
  split; [|split; [|split]].
  - intros key sv req fd data. apply RouteFacts.run_no_classification.
  - intros key sv req fd data top rest sr Hreq Hget Htruthy Hhf Hs.
    rewrite (RouteFacts.run_report key sv req fd data top rest sr
               Hreq Hget Htruthy Hhf Hs).
    cbn [fst]. split.
    + apply RouteFacts.report_response_status.
    + apply RouteFacts.report_response_name.
  - intros env net ts form imageFile st resp data Hget Hsize Hreq Hok Hjson Hname.
    assert (Hnone : diseaseInfo (after (handleSubmit env net ts form) st) = None).
    { destruct (diseaseInfo (after (handleSubmit env net ts form) st)) as [r|] eqn:Hr;
        [|reflexivity].
      destruct (handleSubmit_accept_inv env net ts form imageFile st Hget Hsize r Hr)
        as (resp' & data' & Hreq' & _ & Hjson' & -> & Hd & _).
      rewrite Hreq in Hreq'. injection Hreq' as <-.
      rewrite Hjson in Hjson'. injection Hjson' as <-.
      cbn [diseaseName] in Hd. congruence. }
    split; [exact Hnone|]. split.
    + now apply (handleSubmit_report_or_error env net ts form imageFile st Hget Hsize).
    + intros Hnn.
      rewrite (handleSubmit_reject env net ts form imageFile st Hget Hsize
                 resp data Hreq Hok Hjson Hnn (or_introl Hname)).
      reflexivity.
  - intros env net ts form imageFile st r Hget Hsize Hr.
    destruct (handleSubmit_accept_inv env net ts form imageFile st Hget Hsize r Hr)
      as (resp & data & _ & _ & _ & _ & Hd & _).
    split; [exact Hd|]. now apply truthy_not_empty_string.
Qed.

Lemma name_checked_by_page_not_route_witness :
  fst (Route.run None (Examples.services []) Examples.upload) = resp_went_wrong
  /\ opt_prop (Some (Route.body (fst (Route.run None (Examples.services Examples.nameless)
                                        Examples.upload))))
              (lit "diseaseName") = Some (JStr [])
  /\ (diseaseInfo (after (handleSubmit None (Examples.server (Examples.report ""))
                            Examples.to_string Examples.form)
                     Page.initialState) = None
      /\ error (after (handleSubmit None (Examples.server (Examples.report ""))
                         Examples.to_string Examples.form)
                  Page.initialState) = Some msg_invalid)
  /\ truthy (diseaseName (info_of (Examples.report "Rust"))) = true.
Proof.
  destruct name_checked_by_page_not_route as (Hnone & Hroute & Hpage & Hstored).
  split; [|split; [|split]].
  - exact (Hnone None (Examples.services []) Examples.upload
             Examples.form (Form.FFile Examples.leaf)
             eq_refl eq_refl eq_refl eq_refl).
  - apply (Hroute None (Examples.services Examples.nameless) Examples.upload
             Examples.form (Form.FFile Examples.leaf)
             (Route.mkEntry [] (9 # 10)%Q) [] Examples.two_results
             eq_refl eq_refl eq_refl eq_refl eq_refl).
  - destruct (Hpage None (Examples.server (Examples.report "")) Examples.to_string
                Examples.form Examples.leaf Page.initialState
                (mkFetchResponse true (Ok (Examples.report "")))
                (Examples.report "")
                eq_refl ltac:(vm_compute; discriminate) eq_refl eq_refl eq_refl eq_refl)
      as (Hno & _ & Hmsg).
    split; [exact Hno|]. apply Hmsg. discriminate.
  - apply (Hstored None (Examples.server (Examples.report "Rust")) Examples.to_string
             Examples.form Examples.leaf Page.initialState
             (info_of (Examples.report "Rust"))
             eq_refl ltac:(vm_compute; discriminate) eq_refl).
Defined.



(** C10. The [api_key] field is part of the request the page sends exactly
    when the entered key is not empty after trimming whitespace. The page
    sends one request per submission; for an empty key or a key of whitespace
    only it carries the image and nothing else, otherwise the image and the
    key as it was entered. *)
Theorem api_key_sent_iff_nonblank env net ts form imageFile st :
  Form.get (lit "image") form = Some (Form.FFile imageFile) ->
  Form.file_size imageFile <> 0%N ->
  filter is_fetch (trace (handleSubmit env net ts form) st)
    = [EvFetch (endpoint env) (lit "POST") (uploadFormData imageFile (geminiKey st))]
  /\ (Form.has (lit "api_key") (uploadFormData imageFile (geminiKey st)) = true
      <-> trim (geminiKey st) <> [])
  /\ (forallb is_whitespace (geminiKey st) = true ->
      uploadFormData imageFile (geminiKey st) = [(lit "image", Form.FFile imageFile)])
  /\ (trim (geminiKey st) <> [] ->
      uploadFormData imageFile (geminiKey st) =
        [(lit "image", Form.FFile imageFile);
         (lit "api_key", Form.FString (geminiKey st))]).
Proof.
  intros Hget Hsize. split; [|split; [|split]].
  - destruct (handleSubmit_trace_prefix env net ts form imageFile st Hget Hsize)
      as (rest & -> & Hrest).
    cbn [filter is_fetch]. now rewrite (no_fetch_filter rest Hrest).
  - split.
    + intros Hhas Hblank.
      rewrite (uploadFormData_blank imageFile _ Hblank) in Hhas. discriminate.
    + intros Hkey. now rewrite (uploadFormData_key imageFile _ Hkey).
  - intros Hws. apply uploadFormData_blank. now apply trim_nil.
  - apply uploadFormData_key.
Qed.

Lemma api_key_sent_iff_nonblank_witness :
  filter is_fetch
    (trace (handleSubmit None (Examples.server (Examples.report "Rust"))
              Examples.to_string Examples.form)
       (Examples.typed "   "))
  = [EvFetch (lit "http://localhost:8000/detect-disease") (lit "POST")
       [(lit "image", Form.FFile Examples.leaf)]].
Proof.
  destruct (api_key_sent_iff_nonblank
              None (Examples.server (Examples.report "Rust"))
              Examples.to_string Examples.form Examples.leaf (Examples.typed "   ")
              eq_refl ltac:(vm_compute; discriminate)) as (Hsent & _ & Hblank & _).
  rewrite Hsent. rewrite (Hblank eq_refl). reflexivity.
Defined.

End PageSpec.

(* ------------------------------------------------------------------ *)
(** ** The provider chain *)

Module ChainFacts.

Import Chain Props.

Lemma text_field_nonempty (raw : json) (k s : jsstring) :
  text_field raw k = Some s -> s <> [].
Proof.
  unfold text_field.
  destruct (opt_prop (Some raw) k) as [[| | |t| |]|]; try discriminate.
  destruct t; simpl; [discriminate|]. now intros [= <-].
Qed.

Lemma or_placeholder_nonempty (raw : json) (k : jsstring) :
  or_placeholder (text_field raw k) <> [].
Proof.
  destruct (text_field raw k) as [s|] eqn:E; simpl.
  - now apply text_field_nonempty in E.
  - discriminate.
Qed.

(** What the normalizer lets through is a valid report. *)
Lemma normalize_valid (raw : json) (k : ProviderKind) (r : DiseaseReport) :
  normalize raw k = Some r -> valid_report r.
Proof.
  unfold normalize.
  destruct (text_field raw (lit "diseaseName")) as [name|] eqn:E; [|discriminate].
  intros [= <-]. unfold valid_report. cbn [diseaseName causes precautions solutions].
  repeat split; try apply or_placeholder_nonempty.
  now apply text_field_nonempty in E.
Qed.

Lemma attempt_valid (p : Provider) image credential r :
  attempt p image credential = Some r -> valid_report r.
Proof.
  unfold attempt. destruct (call p image credential); [|discriminate].
  apply normalize_valid.
Qed.

(** The chain fails exactly when every provider it may use has failed. *)
Lemma detect_fails_iff (ps : list Provider) image credential last :
  is_failure (fst (detect ps image credential last)) = true <->
  Forall (fun p => available p credential = true ->
                   attempt p image credential = None) ps.
Proof.
  revert last. induction ps as [|p ps IH]; intros last; simpl.
  - split; [constructor|reflexivity].
  - destruct (available p credential) eqn:Hav.
    + destruct (call p image credential) as [raw|e] eqn:Hcall.
      * destruct (normalize raw (kind p)) as [r|] eqn:Hn.
        -- simpl. split; [discriminate|].
           intros H. inversion H as [|? ? Hp _]; subst.
           specialize (Hp Hav). unfold attempt in Hp.
           rewrite Hcall, Hn in Hp. discriminate.
        -- destruct (detect ps image credential NormalizationError) as [res log] eqn:Hd.
           simpl. specialize (IH NormalizationError). rewrite Hd in IH. simpl in IH.
           rewrite IH. split.
           ++ intros H. constructor; [|exact H]. intros _. unfold attempt.
              now rewrite Hcall, Hn.
           ++ intros H. now inversion H.
      * destruct (detect ps image credential AllProvidersFailedError) as [res log] eqn:Hd.
        simpl. specialize (IH AllProvidersFailedError). rewrite Hd in IH. simpl in IH.
        rewrite IH. split.
        -- intros H. constructor; [|exact H]. intros _. unfold attempt.
           now rewrite Hcall.
        -- intros H. now inversion H.
    + rewrite IH. split.
      * intros H. constructor; [intros Habs; rewrite Hav in Habs; discriminate|exact H].
      * intros H. now inversion H.
Qed.

(** A provider the chain invoked is one of its list that was available. *)
Lemma detect_invoked (ps : list Provider) image credential last k :
  In (Invoked k) (snd (detect ps image credential last)) ->
  exists p, In p ps /\ kind p = k /\ available p credential = true.
Proof.
  revert last. induction ps as [|p ps IH]; intros last; simpl; [contradiction|].
  destruct (available p credential) eqn:Hav.
  - destruct (call p image credential) as [raw|e].
    + destruct (normalize raw (kind p)) as [r|].
      * simpl. intros [[= <-]|[]]. exists p. auto.
      * destruct (detect ps image credential NormalizationError) as [res log] eqn:Hd.
        simpl. intros [[= <-]|Hin]; [exists p; auto|].
        specialize (IH NormalizationError). rewrite Hd in IH.
        destruct (IH Hin) as (q & Hq & Hk & Ha). exists q. auto.
    + destruct (detect ps image credential AllProvidersFailedError) as [res log] eqn:Hd.
      simpl. intros [[= <-]|Hin]; [exists p; auto|].
      specialize (IH AllProvidersFailedError). rewrite Hd in IH.
      destruct (IH Hin) as (q & Hq & Hk & Ha). exists q. auto.
  - intros Hin. destruct (IH last Hin) as (q & Hq & Hk & Ha). exists q. auto.
Qed.

Section TwoTier.
Variable key : option jsstring.
Variable sv : Route.Services.
Variable enhanced_call : Form.File -> jsstring -> Outcome json.

(** The free provider does not look at the credential. *)
Lemma free_ignores_credential image c c' :
  call (free key sv) image c = call (free key sv) image c'.
Proof. reflexivity. Qed.

Lemma attempt_free_ignores_credential image c c' :
  attempt (free key sv) image c = attempt (free key sv) image c'.
Proof. reflexivity. Qed.

(** Without a credential only the free provider is invoked. *)
Lemma detect_without_credential image :
  detect (providers key sv enhanced_call) image None AllProvidersFailedError =
    match call (free key sv) image None with
    | Ok raw =>
        match normalize raw FreeProvider with
        | Some r => (Success (FreeProvider, r), [Invoked FreeProvider])
        | None => (Failure NormalizationError, [Invoked FreeProvider])
        end
    | Throw _ => (Failure AllProvidersFailedError, [Invoked FreeProvider])
    end.
Proof.
  unfold Chain.providers. cbn [detect available kind Chain.enhanced Chain.free].
  fold (Chain.free key sv).
  destruct (call (Chain.free key sv) image None) as [raw|e]; [|reflexivity].
  cbn [kind Chain.free].
  destruct (normalize raw FreeProvider); reflexivity.
Qed.

(** The enhanced provider's report is returned when it has one. *)
Lemma detect_enhanced_first image c r :
  attempt (enhanced enhanced_call) image (Some c) = Some r ->
  fst (detect (providers key sv enhanced_call) image (Some c) AllProvidersFailedError)
    = Success (EnhancedProvider, r).
Proof.
  unfold attempt, Chain.providers.
  cbn [detect available kind Chain.enhanced call].
  destruct (enhanced_call image c) as [raw|e]; [|discriminate].
  intros ->. reflexivity.
Qed.

Lemma detect_after_enhanced_failed image credential :
  attempt (enhanced enhanced_call) image credential = None ->
  fst (detect (providers key sv enhanced_call) image credential AllProvidersFailedError) =
    match call (free key sv) image credential with
    | Ok raw =>
        match normalize raw FreeProvider with
        | Some r => Success (FreeProvider, r)
        | None => Failure NormalizationError
        end
    | Throw _ => Failure AllProvidersFailedError
    end.
Proof.
  destruct credential as [c|].
  - unfold attempt, Chain.providers.
    cbn [detect available kind Chain.enhanced Chain.free call].
    intros Hfail.
    set (resp := fst (Route.run key sv
                        (Route.mkRequest (Ok [(lit "image", Form.FFile image)])))).
    destruct (enhanced_call image c) as [raw|e]; [rewrite Hfail|];
      (destruct (N.eqb (Route.status resp) 200);
       [destruct (normalize (Route.body resp) FreeProvider)|]; reflexivity).
  - intros _. rewrite detect_without_credential.
    destruct (call (free key sv) image None) as [raw|e]; [|reflexivity].
    destruct (normalize raw FreeProvider); reflexivity.
Qed.

(** After a failed enhanced provider, or without one, the free provider's
    report is returned. *)
Lemma detect_falls_back image credential r :
  attempt (enhanced enhanced_call) image credential = None ->
  attempt (free key sv) image credential = Some r ->
  fst (detect (providers key sv enhanced_call) image credential AllProvidersFailedError)
    = Success (FreeProvider, r).
Proof.
  intros Henh Hfree. rewrite (detect_after_enhanced_failed image credential Henh).
  unfold attempt in Hfree.
  destruct (call (free key sv) image credential) as [raw|e]; [|discriminate].
  change (kind (free key sv)) with FreeProvider in Hfree. now rewrite Hfree.
Qed.

(** When the free provider's call fails too, nothing is left. *)
Lemma detect_all_failed image credential e :
  attempt (enhanced enhanced_call) image credential = None ->
  call (free key sv) image credential = Throw e ->
  fst (detect (providers key sv enhanced_call) image credential AllProvidersFailedError)
    = Failure AllProvidersFailedError.
Proof.
  intros Henh Hfree. rewrite (detect_after_enhanced_failed image credential Henh).
  now rewrite Hfree.
Qed.

(** The free provider's call fails exactly when the route handler answers
    with an error. *)
Lemma free_call_fails image c :
  is_ok (call (free key sv) image c) = false <->
  Route.status
    (fst (Route.run key sv
            (Route.mkRequest (Ok [(lit "image", Form.FFile image)])))) <> 200%N.
Proof.
  cbn [call Chain.free].
  destruct (N.eqb_spec
              (Route.status
                 (fst (Route.run key sv
                         (Route.mkRequest (Ok [(lit "image", Form.FFile image)])))))
              200) as [E|E]; simpl; split; congruence.
Qed.
(** With a classifier that names the disease and a search that answers, the
    free provider has a report, and the report is about the first label. *)
Lemma attempt_free_report image c top rest sr :
  Route.hf_imageClassification sv key (Form.FFile image)
    Route.imageClassificationModel = Ok (top :: rest) ->
  Route.google_web_search sv (Route.search_query (Route.label top)) = Ok sr ->
  Route.label top <> [] ->
  exists r, attempt (free key sv) image c = Some r
            /\ diseaseName r = Route.label top.
Proof.
  intros Hhf Hs Hname. unfold attempt. cbn [call kind Chain.free].
  rewrite (RouteFacts.run_report key sv
             (Route.mkRequest (Ok [(lit "image", Form.FFile image)]))
             [(lit "image", Form.FFile image)] (Form.FFile image) top rest sr
             eq_refl eq_refl eq_refl Hhf Hs).
  cbn [fst]. rewrite RouteFacts.report_response_status. cbn [N.eqb Pos.eqb].
  unfold normalize, text_field.
  rewrite RouteFacts.report_response_name.
  destruct (Route.label top) as [|x l] eqn:E; [now destruct Hname|].
  cbn [is_empty]. eexists. split; reflexivity.
Qed.
End TwoTier.

End ChainFacts.

(* ------------------------------------------------------------------ *)
(** ** Properties of the detect-disease operation *)

Module ChainSpec.

Import Chain Props ChainFacts.

(** C1, as the claim states it, fails on the chain: with a free provider
    that answers without a disease name every configured provider has failed
    and the operation fails with NormalizationError, not with
    AllProvidersFailedError; and for an upload that does not decode the
    operation fails with DecodeError although the free provider would have a
    report. *)
Lemma detectDisease_other_failures :
  (Forall (fun p => available p (credential_of Examples.form) = true ->
                    attempt p Examples.leaf (credential_of Examples.form) = None)
          (providers None (Examples.services Examples.nameless)
                     Examples.unreachable_enhanced)
   /\ fst (detectDisease None (Examples.services Examples.nameless)
             Examples.unreachable_enhanced Examples.decodable Examples.form)
      = Failure NormalizationError)
  /\ (attempt (free None (Examples.services Examples.sorted))
              (Form.mkFile (lit "empty.png") (lit "image/png") []) None
      = Some (mkReport (lit "rust") (lit "fungal spores") (lit "air circulation")
                       (lit "N/A"))
      /\ fst (detectDisease None (Examples.services Examples.sorted)
                Examples.unreachable_enhanced Examples.decodable
                [(lit "image",
                  Form.FFile (Form.mkFile (lit "empty.png") (lit "image/png") []))])
         = Failure DecodeError).
Proof.
  split; split; try reflexivity.
  apply Forall_cons; [intros Havailable; discriminate Havailable|].
  apply Forall_cons; [intros _; reflexivity|apply Forall_nil].
Qed.

(** C1, amended. An upload that does not decode fails with DecodeError
    before any provider is tried. For an upload that decodes, the
    detect-disease operation fails if and only if every provider configured
    for the request has failed, an answer that does not normalize counting as
    a failure. When the enhanced provider fails, or is not configured, and
    the free provider succeeds, the result is the free provider's report, a
    valid one, and no error. When the free provider fails as well the
    operation fails and carries no report: with AllProvidersFailedError when
    the call of the free provider failed, with NormalizationError when the
    free provider answered without a disease name. *)
Theorem detectDisease_fails_iff_all_providers_failed
    key sv enhanced_call decodable fd image :
  Form.get (lit "image") fd = Some (Form.FFile image) ->
  (decodable image = false ->
   detectDisease key sv enhanced_call decodable fd = (Failure DecodeError, []))
  /\ (decodable image = true ->
      (is_failure (fst (detectDisease key sv enhanced_call decodable fd)) = true <->
       Forall (fun p => available p (credential_of fd) = true ->
                        attempt p image (credential_of fd) = None)
              (providers key sv enhanced_call))
      /\ (forall r,
          attempt (enhanced enhanced_call) image (credential_of fd) = None ->
          attempt (free key sv) image (credential_of fd) = Some r ->
          fst (detectDisease key sv enhanced_call decodable fd)
            = Success (FreeProvider, r)
          /\ valid_report r)
      /\ (forall e,
          attempt (enhanced enhanced_call) image (credential_of fd) = None ->
          call (free key sv) image (credential_of fd) = Throw e ->
          fst (detectDisease key sv enhanced_call decodable fd)
            = Failure AllProvidersFailedError)
      /\ (forall raw,
          attempt (enhanced enhanced_call) image (credential_of fd) = None ->
          call (free key sv) image (credential_of fd) = Ok raw ->
          normalize raw FreeProvider = None ->
          fst (detectDisease key sv enhanced_call decodable fd)
            = Failure NormalizationError)).
Proof.
  intros Hget. unfold detectDisease. rewrite Hget. split.
  - intros ->. reflexivity.
  - intros ->. split; [apply detect_fails_iff|]. split; [|split].
    + intros r Henh Hfree. split.
      * now apply detect_falls_back.
      * now apply attempt_valid in Hfree.
    + intros e. apply detect_all_failed.
    + intros raw Henh Hcall Hnorm.
      rewrite (detect_after_enhanced_failed key sv enhanced_call image _ Henh).
      now rewrite Hcall, Hnorm.
Qed.

Lemma detectDisease_fails_iff_all_providers_failed_witness :
  fst (detectDisease None (Examples.services Examples.sorted)
         Examples.unreachable_enhanced Examples.decodable Examples.form_with_key)
  = Success (FreeProvider,
             mkReport (lit "rust") (lit "fungal spores") (lit "air circulation")
                      (lit "N/A"))
  /\ fst (detectDisease None Examples.failing_services
            Examples.unreachable_enhanced Examples.decodable Examples.form_with_key)
     = Failure AllProvidersFailedError
  /\ fst (detectDisease None (Examples.services Examples.nameless)
            Examples.unreachable_enhanced Examples.decodable Examples.form_with_key)
     = Failure NormalizationError.
Proof.
  split; [|split].
  - destruct (detectDisease_fails_iff_all_providers_failed
                None (Examples.services Examples.sorted)
                Examples.unreachable_enhanced Examples.decodable
                Examples.form_with_key Examples.leaf eq_refl) as (_ & Hdec).
    destruct (Hdec eq_refl) as (_ & Hfree & _).
    apply Hfree; reflexivity.
  - destruct (detectDisease_fails_iff_all_providers_failed
                None Examples.failing_services
                Examples.unreachable_enhanced Examples.decodable
                Examples.form_with_key Examples.leaf eq_refl) as (_ & Hdec).
    destruct (Hdec eq_refl) as (_ & _ & Hnone & _).
    apply (Hnone (ErrorObj (lit "ProviderFailure") [])); reflexivity.
  - destruct (detectDisease_fails_iff_all_providers_failed
                None (Examples.services Examples.nameless)
                Examples.unreachable_enhanced Examples.decodable
                Examples.form_with_key Examples.leaf eq_refl) as (_ & Hdec).
    destruct (Hdec eq_refl) as (_ & _ & _ & Hnorm).
    apply (Hnorm
             (Route.body (fst (Route.run None (Examples.services Examples.nameless)
                                 (Route.mkRequest
                                    (Ok [(lit "image", Form.FFile Examples.leaf)]))))));
      reflexivity.
Defined.

(** C2. The free provider needs no credential and serves every request that
    has none, and the enhanced provider is attempted only for a request that
    carries a credential: the route handler behind the free provider answers
    the same with and without an [api_key] in the request, and the free
    provider's call does not depend on the credential; a decodable request
    without an [api_key] invokes the free provider and no other; whenever the
    enhanced provider is invoked the request carried a credential; and the
    page sends a credential only when the entered key is not blank. *)
Theorem enhanced_only_with_credential key sv enhanced_call decodable :
  (forall fd v,
      Route.run key sv (Route.mkRequest (Ok (Form.append fd (lit "api_key") v)))
      = Route.run key sv (Route.mkRequest (Ok fd)))
  /\ (forall image c c',
      call (free key sv) image c = call (free key sv) image c')
  /\ (forall fd image,
      Form.get (lit "image") fd = Some (Form.FFile image) ->
      decodable image = true ->
      credential_of fd = None ->
      snd (detectDisease key sv enhanced_call decodable fd) = [Invoked FreeProvider])
  /\ (forall fd,
      In (Invoked EnhancedProvider)
         (snd (detectDisease key sv enhanced_call decodable fd)) ->
      exists c, credential_of fd = Some c)
  /\ (forall imageFile geminiKey,
      trim geminiKey = [] ->
      credential_of (Page.uploadFormData imageFile geminiKey) = None)
  /\ (forall imageFile geminiKey,
      trim geminiKey <> [] ->
      credential_of (Page.uploadFormData imageFile geminiKey) = Some geminiKey).
Proof.
  split; [|split; [|split; [|split; [|split]]]].
  - intros fd v. apply RouteFacts.run_ignores_api_key.
  - reflexivity.
  - intros fd image Hget Hdec Hcred. unfold detectDisease.
    rewrite Hget, Hdec, Hcred, detect_without_credential.
    destruct (call (free key sv) image None) as [raw|e]; [|reflexivity].
    destruct (normalize raw FreeProvider); reflexivity.
  - intros fd. unfold detectDisease.
    destruct (Form.get (lit "image") fd) as [[s|image]|]; try contradiction.
    destruct (decodable image); [|contradiction].
    intros Hin. apply detect_invoked in Hin.
    destruct Hin as (p & Hp & Hk & Hav).
    unfold available in Hav. rewrite Hk in Hav.
    destruct (credential_of fd) as [c|]; [now exists c|discriminate].
  - intros imageFile geminiKey Hblank.
    now rewrite (PageFacts.uploadFormData_blank imageFile geminiKey Hblank).
  - intros imageFile geminiKey Hkey.
    now rewrite (PageFacts.uploadFormData_key imageFile geminiKey Hkey).
Qed.

Lemma enhanced_only_with_credential_witness :
  snd (detectDisease None (Examples.services Examples.sorted)
         Examples.unreachable_enhanced Examples.decodable
         (Page.uploadFormData Examples.leaf (lit "  ")))
  = [Invoked FreeProvider].
Proof.
  destruct (enhanced_only_with_credential
              None (Examples.services Examples.sorted)
              Examples.unreachable_enhanced Examples.decodable)
    as (_ & _ & Hfree & _ & Hblank & _).
  apply (Hfree _ Examples.leaf); [reflexivity|reflexivity|].
  apply Hblank. reflexivity.
Defined.

End ChainSpec.

(* ------------------------------------------------------------------ *)
(** ** More on the route handler *)

Module RouteExtra.

Import Route Props Props2 JsFacts RouteFacts.

(** The handler's log, case by case. *)
Lemma run_log_cases (key : option jsstring) (sv : Services) (req : NextRequest) :
  (fst (run key sv req) = resp_no_image /\ snd (run key sv req) = [])
  \/ (exists e, req_formData req = Throw e
        /\ fst (run key sv req) = resp_went_wrong
        /\ snd (run key sv req) = [EvConsoleError e])
  \/ (exists fd data e,
        req_formData req = Ok fd /\ Form.get (lit "image") fd = Some data
        /\ fst (run key sv req) = resp_went_wrong
        /\ snd (run key sv req) =
             [EvImageClassification key data imageClassificationModel;
              EvConsoleError e])
  \/ (exists fd data top rest e,
        req_formData req = Ok fd /\ Form.get (lit "image") fd = Some data
        /\ hf_imageClassification sv key data imageClassificationModel = Ok (top :: rest)
        /\ fst (run key sv req) = resp_went_wrong
        /\ snd (run key sv req) =
             [EvImageClassification key data imageClassificationModel;
              EvWebSearch (search_query (label top));
              EvConsoleError e])
  \/ (exists fd data top rest sr,
        req_formData req = Ok fd /\ Form.get (lit "image") fd = Some data
        /\ hf_imageClassification sv key data imageClassificationModel = Ok (top :: rest)
        /\ fst (run key sv req) = report_response top sr
        /\ snd (run key sv req) =
             [EvImageClassification key data imageClassificationModel;
              EvWebSearch (search_query (label top))]).
Proof.
  run_handler.
  destruct (req_formData req) as [fd|e] eqn:Hreq;
    [|right; left; exists e; repeat split; auto].
  destruct (Form.get (lit "image") fd) as [data|] eqn:Hget;
    [|left; split; reflexivity].
  destruct (Form.entry_truthy (Some data)) eqn:Htruthy;
    [|left; split; reflexivity].
  cbn [negb].
  destruct (hf_imageClassification sv key data imageClassificationModel)
    as [[|top rest]|e] eqn:Hhf.
  - right; right; left. eexists fd, data, _. repeat split; auto.
  - cbn [nth_error].
    destruct (google_web_search sv (search_query (label top))) as [sr|e] eqn:Hs.
    + right; right; right; right. exists fd, data, top, rest, sr.
      repeat split; auto.
    + right; right; right; left. exists fd, data, top, rest, e.
      repeat split; auto.
  - right; right; left. exists fd, data, e. repeat split; auto.
Qed.

(** X1. The handler calls the services in a fixed order and only as far as
    it gets: a request without an image is answered 400 with no call and no
    log entry; the web search is only ever called after the classifier has
    returned a first entry, with the query built from that entry's label;
    [console.error] is called exactly once, as the last thing, when the
    answer is 500, and not at all otherwise. *)
Theorem POST_call_discipline (key : option jsstring) (sv : Services) (req : NextRequest) :
  (status (fst (run key sv req)) = 400%N -> snd (run key sv req) = [])
  /\ (forall q, In (EvWebSearch q) (snd (run key sv req)) ->
        exists fd data top rest,
          req_formData req = Ok fd /\ Form.get (lit "image") fd = Some data
          /\ hf_imageClassification sv key data imageClassificationModel = Ok (top :: rest)
          /\ q = search_query (label top)
          /\ exists later,
               snd (run key sv req) =
                 EvImageClassification key data imageClassificationModel
                   :: EvWebSearch q :: later)
  /\ (status (fst (run key sv req)) = 500%N ->
        exists calls e,
          snd (run key sv req) = calls ++ [EvConsoleError e]
          /\ filter is_console_error calls = [])
  /\ (status (fst (run key sv req)) <> 500%N ->
        filter is_console_error (snd (run key sv req)) = []).
Proof.
  destruct (run_log_cases key sv req)
    as [(Hr & Hl)|[(e & _ & Hr & Hl)|[(fd & data & e & Hreq & Hget & Hr & Hl)
       |[(fd & data & top & rest & e & Hreq & Hget & Hhf & Hr & Hl)
        |(fd & data & top & rest & sr & Hreq & Hget & Hhf & Hr & Hl)]]]];
    rewrite Hr, Hl; try rewrite report_response_status;
    (split; [|split; [|split]]).
  - reflexivity.
  - intros q [].
  - intros H. discriminate H.
  - reflexivity.
  - intros H. discriminate H.
  - intros q [H|[]]. discriminate.
  - intros _. exists [], e. split; reflexivity.
  - intros H. now destruct H.
  - intros H. discriminate H.
  - intros q [H|[H|[]]]; discriminate.
  - intros _. exists [EvImageClassification key data imageClassificationModel], e.
    split; reflexivity.
  - intros H. now destruct H.
  - intros H. discriminate H.
  - intros q [H|[H|[H|[]]]]; try discriminate.
    injection H as <-. exists fd, data, top, rest. repeat split; auto.
    now exists [EvConsoleError e].
  - intros _.
    exists [EvImageClassification key data imageClassificationModel;
            EvWebSearch (search_query (label top))], e.
    split; reflexivity.
  - intros H. now destruct H.
  - intros H. discriminate H.
  - intros q [H|[H|[]]]; try discriminate.
    injection H as <-. exists fd, data, top, rest. repeat split; auto.
    now exists [].
  - intros H. discriminate H.
  - reflexivity.
Qed.

Lemma POST_call_discipline_witness :
  snd (run None (Examples.services Examples.sorted) (mkRequest (Ok []))) = []
  /\ filter is_console_error
       (snd (run None (Examples.services Examples.sorted) Examples.upload)) = []
  /\ exists calls e,
       snd (run None Examples.failing_services Examples.upload)
         = calls ++ [EvConsoleError e]
       /\ filter is_console_error calls = [].
Proof.
  destruct (POST_call_discipline None (Examples.services Examples.sorted)
              (mkRequest (Ok []))) as (Hnone & _).
  destruct (POST_call_discipline None (Examples.services Examples.sorted)
              Examples.upload) as (_ & _ & _ & Hquiet).
  destruct (POST_call_discipline None Examples.failing_services Examples.upload)
    as (_ & _ & Hfail & _).
  split; [exact (Hnone eq_refl)|]. split.
  - apply Hquiet. vm_compute. discriminate.
  - exact (Hfail eq_refl).
Defined.

Lemma nth_error_firstn_lt {A} (l : list A) (n i : nat) :
  i < n -> nth_error (firstn n l) i = nth_error l i.
Proof.
  revert l i. induction n as [|n IH]; intros l i Hi; [lia|].
  destruct l as [|x l]; [now destruct i|].
  destruct i as [|i]; [reflexivity|].
  simpl. apply IH. lia.
Qed.

(** X2. Only the first three search results count: two search answers whose
    result lists agree on the first three entries are parsed alike, whatever
    follows and whatever else the answers carry. *)
Theorem parseSearchResults_first_three (sr sr' : jsval) (results results' : list json) :
  opt_prop sr (lit "organic_results") = Some (JArr results) ->
  opt_prop sr' (lit "organic_results") = Some (JArr results') ->
  firstn 3 results = firstn 3 results' ->
  parseSearchResults sr = parseSearchResults sr'.
Proof.
  intros H H' Hfirst. unfold parseSearchResults. rewrite H, H'.
  unfold opt_index.
  rewrite <- !(nth_error_firstn_lt results 3) by lia.
  rewrite <- !(nth_error_firstn_lt results' 3) by lia.
  now rewrite Hfirst.
Qed.

Lemma parseSearchResults_first_three_witness :
  parseSearchResults
    (Some (JObj [(lit "organic_results",
                  JArr [Examples.one_result "a"; Examples.one_result "b";
                        Examples.one_result "c"; Examples.one_result "d"])]))
  = parseSearchResults
      (Some (JObj [(lit "organic_results",
                    JArr [Examples.one_result "a"; Examples.one_result "b";
                          Examples.one_result "c"]);
                   (lit "search_metadata", JNull)])).
Proof.
  exact (parseSearchResults_first_three
           (Some (JObj [(lit "organic_results",
                         JArr [Examples.one_result "a"; Examples.one_result "b";
                               Examples.one_result "c"; Examples.one_result "d"])]))
           (Some (JObj [(lit "organic_results",
                         JArr [Examples.one_result "a"; Examples.one_result "b";
                               Examples.one_result "c"]);
                        (lit "search_metadata", JNull)]))
           [Examples.one_result "a"; Examples.one_result "b";
            Examples.one_result "c"; Examples.one_result "d"]
           [Examples.one_result "a"; Examples.one_result "b";
            Examples.one_result "c"]
           eq_refl eq_refl eq_refl).
Defined.

(** X3. Whatever it is given, [undefined] and [null] included,
    [parseSearchResults] returns three fields none of which is missing or
    empty. *)
Theorem parseSearchResults_fields_present (searchResults : jsval) :
  truthy (causes (parseSearchResults searchResults)) = true
  /\ truthy (precautions (parseSearchResults searchResults)) = true
  /\ truthy (solutions (parseSearchResults searchResults)) = true.
Proof.
  destruct (parsed_fields_present searchResults) as (c & p & s & -> & Hc & Hp & Hs).
  auto.
Qed.

(** X18. Of the classifier's answer only the first entry is used: two runs
    on the same request whose classifier answers start with the same entry,
    and whose search gives the same results for its label, are answered
    alike, however the answers go on. *)
Theorem POST_uses_first_entry_only (key : option jsstring) (sv sv' : Services)
    (req : NextRequest) fd data top rest rest' sr :
  req_formData req = Ok fd ->
  Form.get (lit "image") fd = Some data ->
  Form.entry_truthy (Some data) = true ->
  hf_imageClassification sv key data imageClassificationModel = Ok (top :: rest) ->
  hf_imageClassification sv' key data imageClassificationModel = Ok (top :: rest') ->
  google_web_search sv (search_query (label top)) = Ok sr ->
  google_web_search sv' (search_query (label top)) = Ok sr ->
  run key sv req = run key sv' req
  /\ status (fst (run key sv req)) = 200%N.
Proof.
  intros Hreq Hget Htruthy Hhf Hhf' Hs Hs'.
  rewrite (run_report key sv req fd data top rest sr Hreq Hget Htruthy Hhf Hs).
  rewrite (run_report key sv' req fd data top rest' sr Hreq Hget Htruthy Hhf' Hs').
  split; reflexivity.
Qed.

Lemma POST_uses_first_entry_only_witness :
  run None (Examples.services Examples.sorted) Examples.upload
  = run None (Examples.services [mkEntry (lit "rust") (9 # 10)%Q]) Examples.upload.
Proof.
  apply (POST_uses_first_entry_only None
           (Examples.services Examples.sorted)
           (Examples.services [mkEntry (lit "rust") (9 # 10)%Q])
           Examples.upload
           [(lit "image", Form.FFile Examples.leaf)] (Form.FFile Examples.leaf)
           (mkEntry (lit "rust") (9 # 10)%Q)
           [mkEntry (lit "healthy") (1 # 10)%Q] [] Examples.two_results
           eq_refl eq_refl eq_refl eq_refl eq_refl eq_refl eq_refl).
Defined.

End RouteExtra.

(* ------------------------------------------------------------------ *)
(** ** More on the disease-detection page *)

Module PageExtra.

Import Page PageView Props Props2 JsFacts PageFacts.

(** Every way a submission with a usable image can go. *)
Ltac submit_cases env net imageFile st :=
  destruct (fetch net (endpoint env) (uploadFormData imageFile (geminiKey st)))
    as [?resp|?e] eqn:?Hfetch;
  [ destruct (ok resp) eqn:?Hok;
    [ destruct (json_body resp) as [?data|?e] eqn:?Hjson;
      [ destruct (json_null_dec data) as [->|?Hnn];
        [ | rewrite !(get_prop_opt data) by assumption;
            destruct (truthy (opt_prop (Some data) (lit "diseaseName"))) eqn:?Hd;
            [ destruct (truthy (opt_prop (Some data) (lit "causes"))) eqn:?Hc;
              [ destruct (truthy (opt_prop (Some data) (lit "precautions"))) eqn:?Hp;
                [ destruct (truthy (opt_prop (Some data) (lit "solutions"))) eqn:?Hs
                | ]
              | ]
            | ] ]
      | ]
    | destruct (json_body resp) as [?d|?e] eqn:?Hjson;
      [ destruct (get_prop (Some d) (lit "detail")) eqn:?Hdetail | ] ]
  | ];
  page_simpl.

(** X4. A submission without a usable image (no [image] field, a field that
    is not a file, an empty file) only sets the error that asks for an image:
    nothing is sent, no timer is started, and a report shown before stays. *)
Theorem handleSubmit_without_image env net ts form st :
  (forall f, Form.get (lit "image") form = Some (Form.FFile f) ->
             Form.file_size f = 0%N) ->
  after (handleSubmit env net ts form) st = setError (Some msg_select_image) st
  /\ trace (handleSubmit env net ts form) st = []
  /\ diseaseInfo (after (handleSubmit env net ts form) st) = diseaseInfo st
  /\ isPending (after (handleSubmit env net ts form) st) = isPending st.
Proof.
  intros Hbad. run_page.
  destruct (Form.get (lit "image") form) as [[s|f]|];
    try (repeat split; reflexivity).
  rewrite (Hbad f eq_refl). repeat split; reflexivity.
Qed.

Lemma handleSubmit_without_image_witness :
  after (handleSubmit None (Examples.server (Examples.report "Rust"))
           Examples.to_string
           [(lit "image", Form.FFile (Form.mkFile (lit "empty.png") (lit "image/png") []))])
    Page.initialState
  = setError (Some msg_select_image) Page.initialState.
Proof.
  apply (handleSubmit_without_image None (Examples.server (Examples.report "Rust"))
           Examples.to_string
           [(lit "image", Form.FFile (Form.mkFile (lit "empty.png") (lit "image/png") []))]
           Page.initialState).
  intros f [= <-]. reflexivity.
Defined.



(** X6. When the call is rejected the page shows no report, and the message
    depends on what was thrown: for an error named AbortError, the one the
    60 s timer causes, the fixed time-out message, whatever the error's own
    text; for any other error its own message, word for word; for a thrown
    value that is not an error the fixed try-again message. The timer is not
    cleared on this path. *)
Theorem handleSubmit_rejected_call env net ts form imageFile st e :
  Form.get (lit "image") form = Some (Form.FFile imageFile) ->
  Form.file_size imageFile <> 0%N ->
  fetch net (endpoint env) (uploadFormData imageFile (geminiKey st)) = Throw e ->
  diseaseInfo (after (handleSubmit env net ts form) st) = None
  /\ error (after (handleSubmit env net ts form) st) =
       Some match e with
            | ErrorObj name message =>
                if streq name (lit "AbortError") then msg_timed_out else message
            | NonError _ => msg_try_later
            end
  /\ trace (handleSubmit env net ts form) st =
       [EvSetTimeout 60000;
        EvFetch (endpoint env) (lit "POST") (uploadFormData imageFile (geminiKey st));
        EvConsoleError e].
Proof.
  intros Hget Hsize Hfetch. run_page. rewrite Hget.
  apply N.eqb_neq in Hsize. rewrite Hsize. page_simpl.
  rewrite Hfetch. page_simpl. repeat split; reflexivity.
Qed.

Lemma handleSubmit_rejected_call_witness :
  error (after (handleSubmit None
                  (rejecting (ErrorObj (lit "AbortError") (lit "signal is aborted without reason")))
                  Examples.to_string Examples.form) Page.initialState)
    = Some msg_timed_out
  /\ error (after (handleSubmit None
                     (rejecting (ErrorObj (lit "TypeError") (lit "Failed to fetch")))
                     Examples.to_string Examples.form) Page.initialState)
    = Some (lit "Failed to fetch").
Proof.
  split.
  - apply (handleSubmit_rejected_call None
             (rejecting (ErrorObj (lit "AbortError") (lit "signal is aborted without reason")))
             Examples.to_string Examples.form Examples.leaf Page.initialState
             (ErrorObj (lit "AbortError") (lit "signal is aborted without reason"))
             eq_refl ltac:(vm_compute; discriminate) eq_refl).
  - apply (handleSubmit_rejected_call None
             (rejecting (ErrorObj (lit "TypeError") (lit "Failed to fetch")))
             Examples.to_string Examples.form Examples.leaf Page.initialState
             (ErrorObj (lit "TypeError") (lit "Failed to fetch"))
             eq_refl ltac:(vm_compute; discriminate) eq_refl).
Defined.

(** X7. When the server answers with an error status the page shows no
    report and takes its message from the body: the [detail] of the body
    when that is a string that is not empty; the fixed failure message when
    the body is JSON other than [null] without a usable [detail]; the fixed
    unknown-error message when the body is not JSON at all. *)
Theorem handleSubmit_error_status env net ts form imageFile st resp :
  Form.get (lit "image") form = Some (Form.FFile imageFile) ->
  Form.file_size imageFile <> 0%N ->
  fetch net (endpoint env) (uploadFormData imageFile (geminiKey st)) = Ok resp ->
  ok resp = false ->
  diseaseInfo (after (handleSubmit env net ts form) st) = None
  /\ (forall e, json_body resp = Throw e ->
        error (after (handleSubmit env net ts form) st) = Some msg_unknown)
  /\ (forall body detail,
        json_body resp = Ok body ->
        opt_prop (Some body) (lit "detail") = Some (JStr detail) ->
        detail <> [] ->
        error (after (handleSubmit env net ts form) st) = Some detail)
  /\ (forall body,
        json_body resp = Ok body ->
        body <> JNull ->
        truthy (opt_prop (Some body) (lit "detail")) = false ->
        error (after (handleSubmit env net ts form) st) = Some msg_failed).
Proof.
  intros Hget Hsize Hfetch Hok. run_page. rewrite Hget.
  apply N.eqb_neq in Hsize. rewrite Hsize. page_simpl.
  rewrite Hfetch. page_simpl. rewrite Hok. page_simpl.
  split; [|split; [|split]].
  - destruct (json_body resp) as [d|e]; page_simpl;
      [destruct (get_prop (Some d) (lit "detail"))|]; reflexivity.
  - intros e ->. reflexivity.
  - intros body detail -> Hdetail Hne. page_simpl.
    assert (Hnn : body <> JNull) by (intros ->; discriminate).
    rewrite (get_prop_opt body _ Hnn), Hdetail. page_simpl.
    unfold or_else. cbn [truthy].
    destruct detail; [now destruct Hne|]. reflexivity.
  - intros body -> Hnn Hdetail. page_simpl.
    rewrite (get_prop_opt body _ Hnn). page_simpl.
    unfold or_else. rewrite Hdetail. reflexivity.
Qed.

Lemma handleSubmit_error_status_witness :
  error (after (handleSubmit None
                  (refusing (Ok (JObj [(lit "detail", JStr (lit "Invalid API key"))])))
                  Examples.to_string Examples.form) Page.initialState)
    = Some (lit "Invalid API key")
  /\ error (after (handleSubmit None
                     (refusing (Throw (ErrorObj (lit "SyntaxError") (lit "Unexpected token <"))))
                     Examples.to_string Examples.form) Page.initialState)
    = Some msg_unknown.
Proof.
  split.
  - destruct (handleSubmit_error_status None
                (refusing (Ok (JObj [(lit "detail", JStr (lit "Invalid API key"))])))
                Examples.to_string Examples.form Examples.leaf Page.initialState
                (mkFetchResponse false (Ok (JObj [(lit "detail", JStr (lit "Invalid API key"))])))
                eq_refl ltac:(vm_compute; discriminate) eq_refl eq_refl)
      as (_ & _ & Hdetail & _).
    apply (Hdetail (JObj [(lit "detail", JStr (lit "Invalid API key"))]));
      [reflexivity|reflexivity|discriminate].
  - destruct (handleSubmit_error_status None
                (refusing (Throw (ErrorObj (lit "SyntaxError") (lit "Unexpected token <"))))
                Examples.to_string Examples.form Examples.leaf Page.initialState
                (mkFetchResponse false
                   (Throw (ErrorObj (lit "SyntaxError") (lit "Unexpected token <"))))
                eq_refl ltac:(vm_compute; discriminate) eq_refl eq_refl)
      as (_ & Hunknown & _).
    apply (Hunknown (ErrorObj (lit "SyntaxError") (lit "Unexpected token <"))).
    reflexivity.
Defined.

(** X8. A submission with a usable image starts exactly one timer, of
    60000 ms, before it calls [fetch], and clears the timer if and only if
    the call resolved: after a rejected call the timer is never cleared. *)
Theorem handleSubmit_timer env net ts form imageFile st :
  Form.get (lit "image") form = Some (Form.FFile imageFile) ->
  Form.file_size imageFile <> 0%N ->
  exists rest,
    trace (handleSubmit env net ts form) st =
      EvSetTimeout 60000
        :: EvFetch (endpoint env) (lit "POST")
                   (uploadFormData imageFile (geminiKey st))
        :: rest
    /\ (forall ms, ~ In (EvSetTimeout ms) rest)
    /\ (In EvClearTimeout rest <->
        exists resp,
          fetch net (endpoint env) (uploadFormData imageFile (geminiKey st)) = Ok resp).
Proof.
  intros Hget Hsize. run_page. rewrite Hget.
  apply N.eqb_neq in Hsize. rewrite Hsize. page_simpl.
  submit_cases env net imageFile st;
    (eexists; split; [reflexivity|]; split;
     [intros ms H; repeat (destruct H as [H|H]; [discriminate H|]); exact H|]);
    (split;
     [ intros H; try (eexists; reflexivity);
       repeat (destruct H as [H|H]; [discriminate H|]); destruct H
     | intros [r Hr]; try discriminate Hr; left; reflexivity ]).
Qed.

Lemma handleSubmit_timer_witness :
  exists rest,
    trace (handleSubmit None (rejecting (NonError None)) Examples.to_string Examples.form)
          Page.initialState
    = EvSetTimeout 60000
        :: EvFetch (lit "http://localhost:8000/detect-disease") (lit "POST")
                   [(lit "image", Form.FFile Examples.leaf)]
        :: rest
    /\ ~ In EvClearTimeout rest.
Proof.
  destruct (handleSubmit_timer None (rejecting (NonError None)) Examples.to_string
              Examples.form Examples.leaf Page.initialState
              eq_refl ltac:(vm_compute; discriminate)) as (rest & Htrace & _ & Hclear).
  exists rest. split; [exact Htrace|].
  intros Hin. apply Hclear in Hin. destruct Hin as (resp & Hresp). discriminate Hresp.
Defined.

(** X9. The Mode badge and the request can disagree: the badge reads
    'Enhanced AI' for every key that is not empty, the request carries the
    key only when it is not blank. A request that carries the key always
    goes with 'Enhanced AI'; 'Enhanced AI' is shown over a request without a
    key exactly for a key that is not empty and consists of whitespace. *)
Theorem mode_badge_and_request (imageFile : Form.File) (st : State) :
  (Form.has (lit "api_key") (uploadFormData imageFile (geminiKey st)) = true ->
   mode_badge st = lit "Enhanced AI")
  /\ (mode_badge st = lit "Free API" <-> geminiKey st = [])
  /\ (mode_badge st = lit "Enhanced AI"
      /\ Form.has (lit "api_key") (uploadFormData imageFile (geminiKey st)) = false
      <-> geminiKey st <> [] /\ forallb is_whitespace (geminiKey st) = true).
Proof.
  unfold mode_badge.
  destruct (geminiKey st) as [|c key] eqn:Hkey; cbn [is_empty negb].
  - split; [|split].
    + discriminate.
    + split; reflexivity.
    + split; [intros [H _]; discriminate H|intros [H _]; now destruct H].
  - split; [reflexivity|]. split.
    + split; discriminate.
    + destruct (list_eq_dec N.eq_dec (trim (c :: key)) []) as [Hblank|Hfull].
      * rewrite (uploadFormData_blank imageFile _ Hblank).
        apply trim_nil in Hblank. split; intros _; split;
          try reflexivity; try discriminate; exact Hblank.
      * rewrite (uploadFormData_key imageFile _ Hfull).
        split; [intros [_ H]; discriminate H|].
        intros [_ H]. apply trim_nil in H. contradiction.
Qed.

Lemma mode_badge_and_request_witness :
  mode_badge (Examples.typed "  ") = lit "Enhanced AI"
  /\ Form.has (lit "api_key")
       (uploadFormData Examples.leaf (geminiKey (Examples.typed "  "))) = false.
Proof.
  destruct (mode_badge_and_request Examples.leaf (Examples.typed "  "))
    as (_ & _ & Hblank).
  apply Hblank. split; [discriminate|reflexivity].
Defined.

(** X10. Removing the image hides the key input and discards report and
    error but keeps the key that was typed: after a new image is chosen, the
    next submission sends the request the old key calls for. *)
Theorem removed_image_keeps_key env net ts form imageFile result st :
  Form.get (lit "image") form = Some (Form.FFile imageFile) ->
  Form.file_size imageFile <> 0%N ->
  showKeyInput (after handleRemoveImage st) = false
  /\ diseaseInfo (after handleRemoveImage st) = None
  /\ error (after handleRemoveImage st) = None
  /\ geminiKey (after (handleFileChange result) (after handleRemoveImage st))
     = geminiKey st
  /\ filter is_fetch
       (trace (handleSubmit env net ts form)
          (after (handleFileChange result) (after handleRemoveImage st)))
     = [EvFetch (endpoint env) (lit "POST")
          (uploadFormData imageFile (geminiKey st))].
Proof.
  intros Hget Hsize.
  assert (Hkey : geminiKey (after (handleFileChange result) (after handleRemoveImage st))
                 = geminiKey st) by reflexivity.
  repeat split; try reflexivity.
  destruct (handleSubmit_trace_prefix env net ts form imageFile
              (after (handleFileChange result) (after handleRemoveImage st))
              Hget Hsize) as (rest & -> & Hrest).
  cbn [filter is_fetch]. rewrite (no_fetch_filter rest Hrest), Hkey. reflexivity.
Qed.

Lemma removed_image_keeps_key_witness :
  filter is_fetch
    (trace (handleSubmit None (Examples.server (Examples.report "Rust"))
              Examples.to_string Examples.form)
       (after (handleFileChange (lit "data:image/png;base64,iVBORw=="))
          (after handleRemoveImage (Examples.typed "AIza-key"))))
  = [EvFetch (lit "http://localhost:8000/detect-disease") (lit "POST")
       [(lit "image", Form.FFile Examples.leaf);
        (lit "api_key", Form.FString (lit "AIza-key"))]].
Proof.
  apply (removed_image_keeps_key None (Examples.server (Examples.report "Rust"))
           Examples.to_string Examples.form Examples.leaf
           (lit "data:image/png;base64,iVBORw==") (Examples.typed "AIza-key")
           eq_refl ltac:(vm_compute; discriminate)).
Defined.

(** X11. The page and the route handler together: handed a successful
    answer of the route handler, the page accepts it exactly when the label
    of the first classification is not empty, and the report it then holds
    has the label as its name and the three parsed fields; the confidence
    the handler added is not kept. An answer with an empty label is turned
    down as an invalid response. *)
Theorem page_accepts_route_answer env ts form imageFile st top sr :
  Form.get (lit "image") form = Some (Form.FFile imageFile) ->
  Form.file_size imageFile <> 0%N ->
  (Route.label top <> [] ->
   diseaseInfo (after (handleSubmit env (serving (report_response top sr)) ts form) st)
   = Some (mkInfo (Some (JStr (Route.label top)))
                  (Route.causes (Route.parseSearchResults sr))
                  (Route.precautions (Route.parseSearchResults sr))
                  (Route.solutions (Route.parseSearchResults sr))))
  /\ (Route.label top = [] ->
      diseaseInfo (after (handleSubmit env (serving (report_response top sr)) ts form) st)
      = None
      /\ error (after (handleSubmit env (serving (report_response top sr)) ts form) st)
        = Some msg_invalid).
Proof.
  intros Hget Hsize.
  destruct (RouteFacts.report_response_body top sr)
    as (c & p & s & Hparsed & Hc & Hp & Hs & Hresp).
  set (net := serving (report_response top sr)).
  assert (Hfetch : fetch net (endpoint env) (uploadFormData imageFile (geminiKey st))
                   = Ok (mkFetchResponse true (Ok (Route.body (report_response top sr)))))
    by reflexivity.
  rewrite Hparsed. cbn [Route.causes Route.precautions Route.solutions].
  split.
  - intros Hname.
    rewrite (handleSubmit_accept env net ts form imageFile st Hget Hsize
               _ (Route.body (report_response top sr)) Hfetch eq_refl eq_refl).
    + rewrite Hresp. reflexivity.
    + rewrite Hresp. cbn. destruct (Route.label top); [now destruct Hname|reflexivity].
    + rewrite Hresp. exact Hc.
    + rewrite Hresp. exact Hp.
    + rewrite Hresp. exact Hs.
  - intros Hname.
    rewrite (handleSubmit_reject env net ts form imageFile st Hget Hsize
               _ (Route.body (report_response top sr)) Hfetch eq_refl eq_refl).
    + split; reflexivity.
    + rewrite Hresp. discriminate.
    + left. rewrite Hresp. cbn. now rewrite Hname.
Qed.

Lemma page_accepts_route_answer_witness :
  diseaseInfo
    (after (handleSubmit None
              (serving (report_response (Route.mkEntry (lit "rust") (9 # 10)%Q)
                          Examples.two_results))
              Examples.to_string Examples.form) Page.initialState)
  = Some (mkInfo (Some (JStr (lit "rust")))
                 (Some (JStr (lit "fungal spores")))
                 (Some (JStr (lit "air circulation")))
                 (Some (JStr (lit "N/A")))).
Proof.
  destruct (page_accepts_route_answer None Examples.to_string Examples.form
              Examples.leaf Page.initialState
              (Route.mkEntry (lit "rust") (9 # 10)%Q) Examples.two_results
              eq_refl ltac:(vm_compute; discriminate)) as (Haccept & _).
  apply Haccept. discriminate.
Defined.

(** X12. The page and a failed request of the route handler: the handler
    puts its message under [error], the page looks for [detail], so for every
    answer of the handler that is not a success the page shows its own fixed
    failure message and no report. *)
Theorem page_shows_own_message_for_route_error env ts form imageFile st key sv req :
  Form.get (lit "image") form = Some (Form.FFile imageFile) ->
  Form.file_size imageFile <> 0%N ->
  Route.status (fst (Route.run key sv req)) <> 200%N ->
  diseaseInfo (after (handleSubmit env (serving (fst (Route.run key sv req))) ts form) st)
  = None
  /\ error (after (handleSubmit env (serving (fst (Route.run key sv req))) ts form) st)
    = Some msg_failed.
Proof.
  intros Hget Hsize Hfail.
  apply N.eqb_neq in Hsize.
  destruct (RouteFacts.run_failure key sv req Hfail) as [Hr|Hr]; rewrite Hr;
    run_page; rewrite Hget, Hsize; page_simpl; split; reflexivity.
Qed.

Lemma page_shows_own_message_for_route_error_witness :
  error (after (handleSubmit None
                  (serving (fst (Route.run None Examples.failing_services Examples.upload)))
                  Examples.to_string Examples.form) Page.initialState)
  = Some msg_failed.
Proof.
  apply (page_shows_own_message_for_route_error None Examples.to_string Examples.form
           Examples.leaf Page.initialState None Examples.failing_services
           Examples.upload eq_refl ltac:(vm_compute; discriminate)
           ltac:(vm_compute; discriminate)).
Defined.

End PageExtra.

(* ------------------------------------------------------------------ *)
(** ** The flower page *)

Module HomeExtra.

Import Home JsFacts.

Ltac run_home :=
  unfold after, trace, handleSubmit, submit_body, submit_catch, try_finally,
    try_catch, bind, await, ret, throw, gets, set, emit, modify.

Ltac home_simpl :=
  cbn [ui out fst snd negb state isPending imagePreview
       prediction confidence error
       setState setIsPending setImagePreview].

(** Every way a submission with a usable image can go. *)
Ltac home_cases env net formData :=
  destruct (Page.fetch net (endpoint env) formData) as [?resp|?e] eqn:?Hfetch;
  [ destruct (Page.ok resp) eqn:?Hok;
    [ destruct (Page.json_body resp) as [?data|?e] eqn:?Hjson;
      [ destruct (PageFacts.json_null_dec data) as [->|?Hnn];
        [ | rewrite !(PageFacts.get_prop_opt data) by assumption;
            destruct (truthy (opt_prop (Some data) (lit "prediction"))) eqn:?Hp;
            [ destruct (is_number (opt_prop (Some data) (lit "confidence"))) eqn:?Hc
            | ] ]
      | ]
    | destruct (Page.json_body resp) as [?d|?e] eqn:?Hjson;
      [ destruct (get_prop (Some d) (lit "detail")) eqn:?Hdetail | ] ]
  | ];
  home_simpl.

(** What a submission with a usable image leaves behind: a prediction with
    its confidence and no error, or no prediction, no confidence and an
    error. *)
Lemma home_submit_outcome env net ts formData imageFile st :
  Form.get (lit "image") formData = Some (Form.FFile imageFile) ->
  Form.file_size imageFile <> 0%N ->
  isPending (after (handleSubmit env net ts formData) st) = false
  /\ imagePreview (after (handleSubmit env net ts formData) st) = imagePreview st
  /\ ((exists resp data,
         Page.fetch net (endpoint env) formData = Ok resp
         /\ Page.ok resp = true /\ Page.json_body resp = Ok data
         /\ truthy (opt_prop (Some data) (lit "prediction")) = true
         /\ is_number (opt_prop (Some data) (lit "confidence")) = true
         /\ state (after (handleSubmit env net ts formData) st) =
              mkPrediction (opt_prop (Some data) (lit "prediction"))
                           (opt_prop (Some data) (lit "confidence")) None)
      \/ (exists msg,
            state (after (handleSubmit env net ts formData) st) =
              mkPrediction None None (Some msg)
            /\ ~ (exists resp data,
                    Page.fetch net (endpoint env) formData = Ok resp
                    /\ Page.ok resp = true /\ Page.json_body resp = Ok data
                    /\ truthy (opt_prop (Some data) (lit "prediction")) = true
                    /\ is_number (opt_prop (Some data) (lit "confidence")) = true))).
Proof.
  intros Hget Hsize. run_home. rewrite Hget.
  apply N.eqb_neq in Hsize. rewrite Hsize. home_simpl.
  home_cases env net formData; (split; [reflexivity|]); (split; [reflexivity|]);
    try (left; exists resp, data; repeat split; auto; fail);
    right; eexists; (split; [reflexivity|]);
    intros (resp' & data' & Hf' & Hok' & Hj' & Hp' & Hc');
    try discriminate Hf'; injection Hf' as <-;
    try congruence;
    rewrite Hjson in Hj'; try discriminate Hj'; injection Hj' as <-;
    try congruence; cbn in Hp'; discriminate Hp'.
Qed.

Lemma home_submit_no_image env net ts formData st :
  (forall f, Form.get (lit "image") formData = Some (Form.FFile f) ->
             Form.file_size f = 0%N) ->
  handleSubmit env net ts formData (mkWorld st [])
  = (Ok tt, mkWorld (setState (mkPrediction None None (Some msg_select_image)) st) []).
Proof.
  intros Hbad. unfold handleSubmit.
  destruct (Form.get (lit "image") formData) as [[s|f]|]; try reflexivity.
  rewrite (Hbad f eq_refl). reflexivity.
Qed.

(** X13. The flower page shows a prediction after a submission exactly when
    the server answered with a body whose [prediction] is there and whose
    [confidence] is a number, zero included; it then holds these two and no
    error. In every other case it holds no prediction, no confidence and an
    error. *)
Theorem prediction_accepted_iff env net ts formData imageFile st :
  Form.get (lit "image") formData = Some (Form.FFile imageFile) ->
  Form.file_size imageFile <> 0%N ->
  (prediction (state (after (handleSubmit env net ts formData) st)) <> None <->
   exists resp data,
     Page.fetch net (endpoint env) formData = Ok resp
     /\ Page.ok resp = true /\ Page.json_body resp = Ok data
     /\ truthy (opt_prop (Some data) (lit "prediction")) = true
     /\ is_number (opt_prop (Some data) (lit "confidence")) = true)
  /\ (forall resp data,
        Page.fetch net (endpoint env) formData = Ok resp ->
        Page.ok resp = true -> Page.json_body resp = Ok data ->
        truthy (opt_prop (Some data) (lit "prediction")) = true ->
        is_number (opt_prop (Some data) (lit "confidence")) = true ->
        state (after (handleSubmit env net ts formData) st) =
          mkPrediction (opt_prop (Some data) (lit "prediction"))
                       (opt_prop (Some data) (lit "confidence")) None)
  /\ (prediction (state (after (handleSubmit env net ts formData) st)) = None ->
      confidence (state (after (handleSubmit env net ts formData) st)) = None
      /\ error (state (after (handleSubmit env net ts formData) st)) <> None).
Proof.
  intros Hget Hsize.
  destruct (home_submit_outcome env net ts formData imageFile st Hget Hsize)
    as (_ & _ & [(resp & data & Hf & Hok & Hj & Hp & Hc & Hst)|(msg & Hst & Hno)]);
    rewrite Hst; home_simpl.
  - split; [|split].
    + split; [intros _; exists resp, data; auto|].
      intros _ H. rewrite H in Hp. discriminate.
    + intros resp' data' Hf' _ Hj' _ _.
      rewrite Hf in Hf'. injection Hf' as <-.
      rewrite Hj in Hj'. injection Hj' as <-. reflexivity.
    + intros H. rewrite H in Hp. discriminate.
  - split; [|split].
    + split; [intros H; now destruct H|intros H; now destruct Hno].
    + intros resp data Hf Hok Hj Hp Hc. destruct Hno. exists resp, data. auto.
    + intros _. split; [reflexivity|discriminate].
Qed.

Lemma prediction_accepted_iff_witness :
  state (after (handleSubmit None
                  (Examples.server (JObj [(lit "prediction", JStr (lit "daisy"));
                                          (lit "confidence", JNum 0%Q)]))
                  Examples.to_string Examples.form) initial)
  = mkPrediction (Some (JStr (lit "daisy"))) (Some (JNum 0%Q)) None.
Proof.
  destruct (prediction_accepted_iff None
              (Examples.server (JObj [(lit "prediction", JStr (lit "daisy"));
                                      (lit "confidence", JNum 0%Q)]))
              Examples.to_string Examples.form Examples.leaf initial
              eq_refl ltac:(vm_compute; discriminate)) as (_ & Haccept & _).
  exact (Haccept (Page.mkFetchResponse true
                    (Ok (JObj [(lit "prediction", JStr (lit "daisy"));
                               (lit "confidence", JNum 0%Q)])))
                 (JObj [(lit "prediction", JStr (lit "daisy"));
                        (lit "confidence", JNum 0%Q)])
                 eq_refl eq_refl eq_refl eq_refl eq_refl).
Defined.

(** X14. Every handler of the flower page leaves a prediction state in
    which prediction and error exclude each other, whatever the page held
    before: after [handleSubmit], for every form and every network, a
    prediction comes with a numeric confidence and no error, and an error
    with neither prediction nor confidence; after an image was loaded or
    removed the prediction state is the empty one. *)
Theorem home_state_consistent env net ts formData result st :
  Props2.consistent (state (after (handleSubmit env net ts formData) st))
  /\ state (after (handleFileChange result) st) = initialState
  /\ state (after handleRemoveImage st) = initialState.
Proof.
  split; [|split; reflexivity].
  unfold Props2.consistent.
  destruct (PageFacts.image_dec formData) as [(f & Hget & Hsize)|Hbad].
  - destruct (home_submit_outcome env net ts formData f st Hget Hsize)
      as (_ & _ & [(resp & data & _ & _ & _ & Hp & Hc & Hst)|(msg & Hst & _)]);
      rewrite Hst; home_simpl;
      split; intros Habs; first [now destruct Habs | repeat split; auto].
  - unfold after. rewrite (home_submit_no_image env net ts formData st Hbad).
    home_simpl.
    split; intros Habs; first [now destruct Habs | repeat split; auto].
Qed.

(** X15. A submission of the flower page with a usable image sends one
    request and starts no timer: a POST of the form's own data, every field
    of it, to the configured base URL followed by [/predict]. There is no
    default base: without [NEXT_PUBLIC_API_URL] the address is
    [undefined/predict]. *)
Theorem home_request env net ts formData imageFile st :
  Form.get (lit "image") formData = Some (Form.FFile imageFile) ->
  Form.file_size imageFile <> 0%N ->
  exists rest,
    trace (handleSubmit env net ts formData) st =
      EvFetch (match env with Some u => u | None => lit "undefined" end
                 ++ lit "/predict")
              (lit "POST") formData
        :: rest
    /\ Forall (fun e => match e with EvFetch _ _ _ => False | _ => True end) rest.
Proof.
  intros Hget Hsize. run_home. rewrite Hget.
  apply N.eqb_neq in Hsize. rewrite Hsize. home_simpl.
  home_cases env net formData;
    (eexists; split; [reflexivity|repeat constructor]).
Qed.

Lemma home_request_witness :
  exists rest,
    trace (handleSubmit None (Examples.server JNull) Examples.to_string
             Examples.form_with_key) initial
    = EvFetch (lit "undefined/predict") (lit "POST") Examples.form_with_key :: rest.
Proof.
  destruct (home_request None (Examples.server JNull) Examples.to_string
              Examples.form_with_key Examples.leaf initial
              eq_refl ltac:(vm_compute; discriminate)) as (rest & Htrace & _).
  exists rest. exact Htrace.
Defined.

(** X16. When the call of the flower page is rejected the page shows the
    message of the error that was thrown, whatever its name (there is no
    time-out case), and the fixed try-again message for a thrown value that
    is not an error; prediction and confidence are empty and nothing is
    pending. *)
Theorem home_rejected_call env net ts formData imageFile st e :
  Form.get (lit "image") formData = Some (Form.FFile imageFile) ->
  Form.file_size imageFile <> 0%N ->
  Page.fetch net (endpoint env) formData = Throw e ->
  after (handleSubmit env net ts formData) st =
    mkState (mkPrediction None None
               (Some match e with
                     | ErrorObj _ message => message
                     | NonError _ => msg_try_later
                     end))
            false (imagePreview st).
Proof.
  intros Hget Hsize Hfetch. run_home. rewrite Hget.
  apply N.eqb_neq in Hsize. rewrite Hsize. home_simpl.
  rewrite Hfetch. reflexivity.
Qed.

Lemma home_rejected_call_witness :
  error (state (after (handleSubmit None
                         (Props2.rejecting (ErrorObj (lit "AbortError") (lit "aborted")))
                         Examples.to_string Examples.form) initial))
  = Some (lit "aborted").
Proof.
  rewrite (home_rejected_call None
             (Props2.rejecting (ErrorObj (lit "AbortError") (lit "aborted")))
             Examples.to_string Examples.form Examples.leaf initial
             (ErrorObj (lit "AbortError") (lit "aborted"))
             eq_refl ltac:(vm_compute; discriminate) eq_refl).
  reflexivity.
Defined.

(** X17. A submission of the flower page without a usable image sends
    nothing and replaces whatever the page held, an earlier prediction
    included, by the error that asks for an image. *)
Theorem home_without_image env net ts formData st :
  (forall f, Form.get (lit "image") formData = Some (Form.FFile f) ->
             Form.file_size f = 0%N) ->
  state (after (handleSubmit env net ts formData) st)
    = mkPrediction None None (Some msg_select_image)
  /\ trace (handleSubmit env net ts formData) st = []
  /\ isPending (after (handleSubmit env net ts formData) st) = isPending st.
Proof.
  intros Hbad. unfold after, trace.
  rewrite (home_submit_no_image env net ts formData st Hbad).
  repeat split; reflexivity.
Qed.

Lemma home_without_image_witness :
  state (after (handleSubmit None (Examples.server JNull) Examples.to_string [])
           (setState (mkPrediction (Some (JStr (lit "daisy"))) (Some (JNum 1%Q)) None)
                     initial))
  = mkPrediction None None (Some msg_select_image).
Proof.
  apply (home_without_image None (Examples.server JNull) Examples.to_string []
           (setState (mkPrediction (Some (JStr (lit "daisy"))) (Some (JNum 1%Q)) None)
                     initial)).
  intros f Hf. discriminate Hf.
Defined.

End HomeExtra.

(* ------------------------------------------------------------------ *)
(** ** The flower classifier *)

Module ClassifierSpec.

Import Chain Classifier.








End ClassifierSpec.
